(** * promise-erp: the session-scoped authenticated data-access layer

    A shallow embedding of
      - [src/lib/auth.js]            (the NextAuth callbacks),
      - [apiServices/groupService]   (getGroups, addGroup, getGroupById,
                                      updateGroup, deleteGroup),
      - [apiServices/courseService]  (getCourses, createCourse,
                                      getCourseById, updateCourse,
                                      DeleteCourse),
    followed by the properties of the specification that concern them.

    JavaScript values are an inductive type, objects are association
    lists in enumeration order, and an [async] function is a computation
    in a state-and-exception monad over an explicit environment (session
    cookie, clock, transport) and an explicit state (transport calls made,
    cache store, tags updated, console). *)

From Stdlib Require Import ZArith String Ascii List Bool Lia DecimalString.
Import ListNotations.

#[local] Set Warnings "-register-all".

Local Open Scope string_scope.
Local Open Scope Z_scope.

(* ================================================================== *)
(** ** JavaScript values *)
(* ================================================================== *)

(** Numbers are the integers among the doubles (page numbers, HTTP
    status codes, millisecond time values); objects are plain: their own
    keys never shadow an inherited method ([toString], [hasOwnProperty]). *)
Inductive value : Type :=
| VUndefined
| VNull
| VBool (b : bool)
| VNum (n : Z)
| VStr (s : string)
| VArr (items : list value)
| VObj (props : list (string * value)).

Definition obj : Type := list (string * value).

(** [!!v] *)
Definition truthy (v : value) : bool :=
  match v with
  | VUndefined | VNull => false
  | VBool b => b
  | VNum n => negb (n =? 0)
  | VStr s => negb (s =? "")%string
  | VArr _ | VObj _ => true
  end.

(** [o[k]] on the own properties of a plain object. *)
Fixpoint get (o : obj) (k : string) : value :=
  match o with
  | [] => VUndefined
  | (k', v) :: rest => if (k' =? k)%string then v else get rest k
  end.

(** [o.hasOwnProperty(k)] *)
Fixpoint hasOwnProperty (o : obj) (k : string) : bool :=
  match o with
  | [] => false
  | (k', _) :: rest => (k' =? k)%string || hasOwnProperty rest k
  end.

(** [o[k] = v]: overwrite in place, or add as the last property. *)
Fixpoint set (o : obj) (k : string) (v : value) : obj :=
  match o with
  | [] => [(k, v)]
  | (k', v') :: rest =>
      if (k' =? k)%string then (k, v) :: rest else (k', v') :: set rest k v
  end.

(** [Object.keys(o)], also the keys a [for ... in] visits. *)
Definition keys (o : obj) : list string := map fst o.

Definition number_toString (n : Z) : string :=
  NilZero.string_of_int (Z.to_int n).

(** [String(v)], which is [v.toString()] wherever the latter is defined. *)
Fixpoint toString (v : value) : string :=
  match v with
  | VUndefined => "undefined"
  | VNull => "null"
  | VBool true => "true"
  | VBool false => "false"
  | VNum n => number_toString n
  | VStr s => s
  | VArr items =>
      (fix join (l : list value) : string :=
         match l with
         | [] => ""
         | x :: rest =>
             match x with
             | VUndefined | VNull => ""
             | _ => toString x
             end ++
             match rest with
             | [] => ""
             | _ :: _ => "," ++ join rest
             end
         end) items
  | VObj _ => "[object Object]"
  end.

(** [a || b] *)
Definition js_or (a b : value) : value := if truthy a then a else b.

(** Structural equality, used for the keys of the cache. *)
Fixpoint value_eqb (a b : value) {struct a} : bool :=
  match a, b with
  | VUndefined, VUndefined => true
  | VNull, VNull => true
  | VBool x, VBool y => Bool.eqb x y
  | VNum x, VNum y => x =? y
  | VStr x, VStr y => (x =? y)%string
  | VArr xs, VArr ys =>
      (fix all2 (l : list value) (r : list value) : bool :=
         match l, r with
         | [], [] => true
         | x :: l', y :: r' => value_eqb x y && all2 l' r'
         | _, _ => false
         end) xs ys
  | VObj xs, VObj ys =>
      (fix all2 (l : list (string * value)) (r : list (string * value)) : bool :=
         match l, r with
         | [], [] => true
         | (k, x) :: l', (k', y) :: r' =>
             (k =? k')%string && value_eqb x y && all2 l' r'
         | _, _ => false
         end) xs ys
  | _, _ => false
  end.

(* ================================================================== *)
(** ** Dates *)
(* ================================================================== *)

(** The time value of a [Date]: milliseconds since the epoch, or [None]
    for an invalid date (NaN). *)
Definition time_value : Type := option Z.

Definition TimeClip (t : Z) : time_value :=
  if Z.abs t <=? 8640000000000000 then Some t else None.

(** [new Date(v)]; [parse] is [Date.parse] on strings. *)
Definition new_Date (parse : string -> time_value) (v : value) : time_value :=
  match v with
  | VUndefined => None
  | VNull => Some 0
  | VBool b => Some (if b then 1 else 0)
  | VNum n => TimeClip n
  | VStr s => parse s
  | VArr _ | VObj _ => parse (toString v)
  end.

(** [a < b] on two dates: false as soon as one of them is invalid. *)
Definition date_lt (a b : time_value) : bool :=
  match a, b with
  | Some x, Some y => x <? y
  | _, _ => false
  end.

(* ================================================================== *)
(** ** Exceptions, requests and responses *)
(* ================================================================== *)

(** What a [throw] or a rejected promise carries: an [Error] instance
    with its message, or any other value (a response body passed to
    [Promise.reject]). *)
Inductive thrown : Type :=
| ErrorObj (message : string)
| Rejection (reason : value).

Inductive Outcome (A : Type) : Type :=
| Return (a : A)
| Throw (e : thrown).
Arguments Return {A} a.
Arguments Throw {A} e.

(** [new Error(v)] *)
Definition new_Error (v : value) : thrown :=
  match v with
  | VUndefined => ErrorObj ""
  | _ => ErrorObj (toString v)
  end.

(** [error instanceof Error] *)
Definition instanceof_Error (e : thrown) : bool :=
  match e with
  | ErrorObj _ => true
  | Rejection _ => false
  end.

Definition TypeError_read (v : value) (k : string) : thrown :=
  ErrorObj ("Cannot read properties of " ++ toString v
            ++ " (reading '" ++ k ++ "')").

(** [v.k] for a property [k] that only plain objects carry. *)
Definition prop (v : value) (k : string) : Outcome value :=
  match v with
  | VUndefined | VNull => Throw (TypeError_read v k)
  | VObj o => Return (get o k)
  | VBool _ | VNum _ | VStr _ | VArr _ => Return VUndefined
  end.

(** [error.k] on a caught value, for [k] among [message] and [errors]. *)
Definition thrown_prop (e : thrown) (k : string) : Outcome value :=
  match e with
  | ErrorObj m => Return (if (k =? "message")%string then VStr m else VUndefined)
  | Rejection v => prop v k
  end.

Inductive form_entry : Type :=
| Text (s : string)
| File (name : string).

(** A [FormData]: its entries, in order; [append] adds at the end. *)
Definition FormData : Type := list (string * form_entry).

Definition FormData_append (fd : FormData) (k v : string) : FormData :=
  (fd ++ [(k, Text v)])%list.

Inductive req_body : Type :=
| NoBody
| JSON_stringify (v : value)
| Multipart (fd : FormData).

Record Request : Type := mkRequest {
  url : string;
  method : string;
  headers : list (string * string);
  body : req_body
}.

Inductive json_body : Type :=
| Json (v : value)
| NotJson (syntax_error : string).

Record Response : Type := mkResponse {
  status : Z;
  statusText : string;
  payload : json_body
}.

(** [res.ok] *)
Definition ok (res : Response) : bool :=
  (200 <=? status res) && (status res <=? 299).

(** What awaiting [fetch] gives: a response, whatever its status, or a
    thrown error when no response was obtained. *)
Inductive fetch_result : Type :=
| Responds (res : Response)
| Fails (message : string).

(** A settled promise, for the places where the source returns a promise
    without awaiting it. *)
Inductive promise : Type :=
| Fulfilled (v : value)
| Rejected (e : thrown).

(** [res.json()] *)
Definition json (res : Response) : promise :=
  match payload res with
  | Json v => Fulfilled v
  | NotJson msg => Rejected (ErrorObj msg)
  end.

(* ================================================================== *)
(** ** The environment, the state and the monad of async functions *)
(* ================================================================== *)

Record Env : Type := mkEnv {
  NEXT_PUBLIC_API_URL : value;       (* process.env.NEXT_PUBLIC_API_URL *)
  cookie : option obj;               (* the decoded session JWT, if any *)
  session_base : obj;                (* the session before callbacks.session *)
  clock : Z;                         (* the time value of [new Date()] *)
  Date_parse : string -> time_value;
  transport : Request -> fetch_result
}.

Record cache_entry : Type := mkEntry {
  entry_fn : string;
  entry_args : list value;
  entry_tag : string;
  entry_value : value
}.

Record State : Type := mkState {
  fetch_calls : list Request;        (* every call of [fetch], oldest first *)
  cache : list cache_entry;          (* the "use cache" store *)
  updated_tags : list string;        (* every call of [updateTag] *)
  console : list (string * thrown)   (* every call of [console.error] *)
}.

Definition M (A : Type) : Type := Env -> State -> Outcome A * State.

Definition ret {A} (a : A) : M A := fun _ st => (Return a, st).

Definition throw {A} (e : thrown) : M A := fun _ st => (Throw e, st).

Definition bind {A B} (m : M A) (k : A -> M B) : M B :=
  fun env st =>
    match m env st with
    | (Return a, st') => k a env st'
    | (Throw e, st') => (Throw e, st')
    end.

(** [try { m } catch (error) { h error }] *)
Definition try_catch {A} (m : M A) (h : thrown -> M A) : M A :=
  fun env st =>
    match m env st with
    | (Return a, st') => (Return a, st')
    | (Throw e, st') => h e env st'
    end.

Declare Scope js_scope.
Delimit Scope js_scope with js.
Notation "x <- m ;; k" := (bind m (fun x => k))
  (at level 61, m at next level, right associativity) : js_scope.
Notation "m ;; k" := (bind m (fun _ => k))
  (at level 61, right associativity) : js_scope.
Local Open Scope js_scope.

Definition lift {A} (o : Outcome A) : M A := fun _ st => (o, st).

(** [await p] *)
Definition await (p : promise) : M value :=
  match p with
  | Fulfilled v => ret v
  | Rejected e => throw e
  end.

Definition ask : M Env := fun env st => (Return env, st).

(** The state after [console.error(label, e)]. *)
Definition logged (st : State) (label : string) (e : thrown) : State :=
  mkState (fetch_calls st) (cache st) (updated_tags st)
          (console st ++ [(label, e)])%list.

Definition console_error (label : string) (e : thrown) : M unit :=
  fun _ st => (Return tt, logged st label e).

(** [await fetch(url, init)] *)
Definition fetch (req : Request) : M Response :=
  fun env st =>
    let st' := mkState (fetch_calls st ++ [req])%list (cache st)
                       (updated_tags st) (console st) in
    match transport env req with
    | Responds res => (Return res, st')
    | Fails msg => (Throw (ErrorObj msg), st')
    end.

(** [updateTag(tag)]: every entry stored under [tag] is dropped. *)
Definition updateTag (tag : string) : M unit :=
  fun _ st =>
    (Return tt,
     mkState (fetch_calls st)
             (filter (fun e => negb (entry_tag e =? tag)%string) (cache st))
             (updated_tags st ++ [tag])%list
             (console st)).

Fixpoint args_eqb (a b : list value) : bool :=
  match a, b with
  | [], [] => true
  | x :: a', y :: b' => value_eqb x y && args_eqb a' b'
  | _, _ => false
  end.

Definition cache_lookup (fn : string) (args : list value) (c : list cache_entry)
  : option value :=
  match find (fun e => (entry_fn e =? fn)%string && args_eqb (entry_args e) args) c with
  | Some e => Some (entry_value e)
  | None => None
  end.

(** A function whose body opens with ["use cache"; cacheTag(tag)]: a call
    with arguments already stored is answered from the store, without
    running the body; otherwise the body runs, and what it returns is
    stored under [tag]. A body that throws stores nothing. *)
Definition use_cache (fn : string) (args : list value) (tag : string)
  (body : M value) : M value :=
  fun env st =>
    match cache_lookup fn args (cache st) with
    | Some v => (Return v, st)
    | None =>
        match body env st with
        | (Return v, st') =>
            (Return v,
             mkState (fetch_calls st')
                     (cache st' ++ [mkEntry fn args tag v])%list
                     (updated_tags st') (console st'))
        | (Throw e, st') => (Throw e, st')
        end
    end.

(** [const API_BASE = process.env.NEXT_PUBLIC_API_URL || "http://..."],
    as it is spliced into a template string. *)
Definition API_BASE (env : Env) : string :=
  toString (js_or (NEXT_PUBLIC_API_URL env) (VStr "http://127.0.0.1:8000/api/v1")).

(* ================================================================== *)
(** ** src/lib/auth.js: the callbacks *)
(* ================================================================== *)

(** [callbacks.jwt({ token, user })]; [user] is present at sign-in only;
    [now] is the time value of [new Date()]. *)
Definition jwt (parse : string -> time_value) (now : Z)
  (token : obj) (user : option obj) : obj :=
  let token :=
    match user with
    | Some user =>
        let token := set token "id" (get user "id") in
        let token := set token "name" (get user "name") in
        let token := set token "email" (get user "email") in
        let token := set token "roles" (get user "roles") in
        let token := set token "permissions" (get user "permissions") in
        let token := set token "accessToken" (get user "accessToken") in
        set token "expiresAt" (get user "expiresAt")
    | None => token
    end in
  if truthy (get token "expiresAt")
     && date_lt (new_Date parse (get token "expiresAt")) (Some now)
  then set token "accessToken" VNull      (* { ...token, accessToken: null } *)
  else token.

(** [callbacks.session({ session, token })]; [session.user] is an object
    or absent. *)
Definition session_callback (session token : obj) : obj :=
  let session :=
    match get session "user" with
    | VObj user =>
        let user := set user "id" (get token "id") in
        let user := set user "name" (get token "name") in
        let user := set user "email" (get token "email") in
        let user := set user "roles" (get token "roles") in
        let user := set user "permissions" (get token "permissions") in
        set session "user" (VObj user)
    | _ => session
    end in
  let session := set session "accessToken" (get token "accessToken") in
  set session "expiresAt" (get token "expiresAt").

(** [await getServerSession(authOptions)] under the "jwt" session
    strategy: without a session cookie the session is [null]; with one,
    the decoded token goes through [callbacks.jwt] (no [user]) and the
    result through [callbacks.session]. *)
Definition getServerSession : M value :=
  fun env st =>
    match cookie env with
    | None => (Return VNull, st)
    | Some token =>
        let token := jwt (Date_parse env) (clock env) token None in
        (Return (VObj (session_callback (session_base env) token)), st)
    end.

(** [session?.accessToken] *)
Definition optional_accessToken (session : value) : value :=
  match session with
  | VObj s => get s "accessToken"
  | _ => VUndefined
  end.

(** The Credential Resolver of the specification: the access token an
    operation gets to see, or [None] (Absent) when [!token] holds. *)
Definition resolve (env : Env) : option value :=
  match cookie env with
  | None => None
  | Some token =>
      let session :=
        session_callback (session_base env)
          (jwt (Date_parse env) (clock env) token None) in
      let token := get session "accessToken" in
      if truthy token then Some token else None
  end.

(* ================================================================== *)
(** ** URLSearchParams *)
(* ================================================================== *)

Definition URLSearchParams : Type := list (string * string).

(** [p.append(k, v)] *)
Definition URLSearchParams_append (p : URLSearchParams) (k v : string)
  : URLSearchParams :=
  (p ++ [(k, v)])%list.

Definition hex_digit (n : nat) : ascii :=
  match n with
  | 0 => "0" | 1 => "1" | 2 => "2" | 3 => "3" | 4 => "4" | 5 => "5"
  | 6 => "6" | 7 => "7" | 8 => "8" | 9 => "9" | 10 => "A" | 11 => "B"
  | 12 => "C" | 13 => "D" | 14 => "E" | _ => "F"
  end%nat%char.

(** Bytes the application/x-www-form-urlencoded serializer leaves as
    they are: ASCII letters and digits, and [*], [-], [.], [_]. *)
Definition urlencoded_plain (c : ascii) : bool :=
  let n := nat_of_ascii c in
  ((48 <=? n) && (n <=? 57) || (65 <=? n) && (n <=? 90)
   || (97 <=? n) && (n <=? 122)
   || (n =? 42) || (n =? 45) || (n =? 46) || (n =? 95))%nat.

Fixpoint urlencode (s : string) : string :=
  match s with
  | EmptyString => EmptyString
  | String c rest =>
      if urlencoded_plain c then String c (urlencode rest)
      else if (nat_of_ascii c =? 32)%nat then String "+" (urlencode rest)
      else String "%"
             (String (hex_digit (nat_of_ascii c / 16))
                (String (hex_digit (nat_of_ascii c mod 16)) (urlencode rest)))
  end.

(** [urlParams.toString()] *)
Fixpoint URLSearchParams_toString (p : URLSearchParams) : string :=
  match p with
  | [] => ""
  | (k, v) :: rest =>
      urlencode k ++ "=" ++ urlencode v ++
      match rest with
      | [] => ""
      | _ :: _ => "&" ++ URLSearchParams_toString rest
      end
  end.

(* ================================================================== *)
(** ** apiServices/groupService *)
(* ================================================================== *)

Module Groups.

Definition is_undefined (v : value) : bool :=
  match v with VUndefined => true | _ => false end.

Definition is_null (v : value) : bool :=
  match v with VNull => true | _ => false end.

(** The [for (const key in params)] loop of [getGroupsCached]; [ks] are
    the keys still to visit. *)
Fixpoint for_in_filters (ks : list string) (params : obj)
  (urlParams : URLSearchParams) : URLSearchParams :=
  match ks with
  | [] => urlParams
  | key :: rest =>
      if negb (is_undefined (get params key))
         && negb (is_null (get params key))
         && hasOwnProperty params key
      then for_in_filters rest params
             (URLSearchParams_append urlParams key (toString (get params key)))
      else for_in_filters rest params urlParams
  end.

(** The query of a listing: [page], then the filters. *)
Definition urlParams_of (page : Z) (params : obj) : URLSearchParams :=
  let urlParams := URLSearchParams_append [] "page" (number_toString page) in
  for_in_filters (keys params) params urlParams.

Definition json_headers (token : value) : list (string * string) :=
  [("Content-Type", "application/json");
   ("Authorization", "Bearer " ++ toString token)].

Definition getGroupsCached (page : option Z) (token : value)
  (params : option obj) : M value :=
  let page := match page with Some p => p | None => 1 end in
  let params := match params with Some p => p | None => [] end in
  use_cache "getGroupsCached" [VNum page; token; VObj params] "groups-list"
    (try_catch
       (env <- ask ;;
        res <- fetch (mkRequest
                        (API_BASE env ++ "/groups?"
                         ++ URLSearchParams_toString (urlParams_of page params))
                        "GET" (json_headers token) NoBody) ;;
        await (json res))
       (fun error =>
          console_error "Error in getGroupsCached:" error ;;
          throw (match error with
                 | ErrorObj message => ErrorObj message
                 | Rejection _ =>
                     ErrorObj "Unknown error occurred while fetching groups"
                 end))).

Definition getGroups (page : option Z) (params : option obj) : M value :=
  let page := match page with Some p => p | None => 1 end in
  let params := match params with Some p => p | None => [] end in
  try_catch
    (session <- getServerSession ;;
     let token := optional_accessToken session in
     if negb (truthy token)
     then throw (ErrorObj "No valid session or access token found.")
     else getGroupsCached (Some page) token (Some params))
    (fun error =>
       console_error "Error in get groups:" error ;;
       throw (match error with
              | ErrorObj message => ErrorObj message
              | Rejection _ => ErrorObj "Failed to get groups"
              end)).

Definition addGroup (groupData : value) : M value :=
  try_catch
    (session <- getServerSession ;;
     let token := optional_accessToken session in
     if negb (truthy token)
     then ret (VObj [("success", VBool false);
                     ("message", VStr "No valid session or access token found.");
                     ("errors", VObj []);
                     ("code", VNum 401)])
     else
       env <- ask ;;
       response <- fetch (mkRequest (API_BASE env ++ "/groups") "POST"
                            (json_headers token) (JSON_stringify groupData)) ;;
       data <- await (json response) ;;
       if negb (ok response)
       then
         message <- lift (prop data "message") ;;
         errors <- lift (prop data "errors") ;;
         ret (VObj [("success", VBool false);
                    ("message", js_or message (VStr "Failed to add group."));
                    ("errors", errors);
                    ("code", VNum (status response))])
       else
         updateTag "groups-list" ;;
         ret data)
    (fun error =>
       console_error "Error adding group:" error ;;
       match error with
       | ErrorObj message =>
           ret (VObj [("success", VBool false);
                      ("message", js_or (VStr message)
                                    (VStr "An unexpected error occurred."));
                      ("code", VNum 500)])
       | Rejection _ =>
           ret (VObj [("success", VBool false);
                      ("message", VStr "An unexpected error occurred.");
                      ("code", VNum 500)])
       end).

Definition getGroupById (id : string) : M value :=
  p <- try_catch
         (session <- getServerSession ;;
          let token := optional_accessToken session in
          if negb (truthy token)
          then throw (ErrorObj "No valid session or access token found.")
          else
            env <- ask ;;
            res <- fetch (mkRequest (API_BASE env ++ "/groups/" ++ id) "GET"
                            (json_headers token) NoBody) ;;
            if negb (ok res)
            then throw (ErrorObj ("Failed to fetch group: " ++ statusText res))
            else ret (json res))               (* return res.json(), not awaited *)
         (fun error =>
            console_error "Error in getGroupById:" error ;;
            throw (match error with
                   | ErrorObj message => ErrorObj message
                   | Rejection _ =>
                       ErrorObj "Unknown error occurred while fetching group"
                   end)) ;;
  await p.

(** The [try] block of [updateGroup]. *)
Definition updateGroup_try (id : string) (groupData : value) : M value :=
  session <- getServerSession ;;
  let token := optional_accessToken session in
  if negb (truthy token)
  then ret (VObj [("success", VBool false);
                  ("message", VStr "No valid session or access token found.");
                  ("code", VNum 401)])
  else
    env <- ask ;;
    res <- fetch (mkRequest (API_BASE env ++ "/groups/" ++ id) "PATCH"
                    (json_headers token) (JSON_stringify groupData)) ;;
    data <- await (json res) ;;
    if negb (ok res)
    then
      message <- lift (prop data "message") ;;
      errors <- lift (prop data "errors") ;;
      ret (VObj [("success", VBool false);
                 ("message", js_or message (VStr "Failed to update group."));
                 ("errors", errors);
                 ("code", VNum (status res))])
    else
      updateTag "groups-list" ;;
      ret data.

Definition updateGroup (id : string) (groupData : value) : M value :=
  try_catch (updateGroup_try id groupData)
    (fun _ =>
       ret (VObj [("success", VBool false);
                  ("message", VStr "An unexpected error occurred.");
                  ("code", VNum 500)])).

Definition deleteGroup (id : Z) : M value :=
  try_catch
    (session <- getServerSession ;;
     let token := optional_accessToken session in
     if negb (truthy token)
     then throw (ErrorObj "Unauthorized")
     else
       env <- ask ;;
       res <- fetch (mkRequest (API_BASE env ++ "/groups/" ++ number_toString id)
                       "DELETE"
                       [("Authorization", "Bearer " ++ toString token);
                        ("Content-Type", "application/json")]
                       NoBody) ;;
       result <- await (json res) ;;
       updateTag "groups-list" ;;
       ret result)
    (fun error =>
       console_error "Error in groups:" error ;;
       throw (match error with
              | ErrorObj message => ErrorObj message
              | Rejection _ => ErrorObj "Failed to delete groups"
              end)).

End Groups.

(* ================================================================== *)
(** ** apiServices/courseService *)
(* ================================================================== *)

Module Courses.

(** The [Object.keys(params).forEach(...)] of [getCoursesCached]. *)
Fixpoint forEach_filters (ks : list string) (params : obj)
  (searchParams : URLSearchParams) : URLSearchParams :=
  match ks with
  | [] => searchParams
  | key :: rest =>
      if truthy (get params key)
      then forEach_filters rest params
             (URLSearchParams_append searchParams key (toString (get params key)))
      else forEach_filters rest params searchParams
  end.

(** The query of a listing: [page], then the filters. *)
Definition searchParams_of (page : Z) (params : obj) : URLSearchParams :=
  let searchParams := URLSearchParams_append [] "page" (number_toString page) in
  forEach_filters (keys params) params searchParams.

Definition bearer (token : value) : list (string * string) :=
  [("Authorization", "Bearer " ++ toString token)].

(** [API_BASE] is taken to be an absolute URL in normal form with neither
    query nor fragment, so that [url.toString()] is the base, a question
    mark and the serialized parameters. *)
Definition getCoursesCached (page : Z) (token : value) (params : obj)
  : M value :=
  use_cache "getCoursesCached" [VNum page; token; VObj params] "courses-list"
    (p <- try_catch
            (env <- ask ;;
             res <- fetch (mkRequest
                             (API_BASE env ++ "/courses?"
                              ++ URLSearchParams_toString (searchParams_of page params))
                             "GET"
                             [("Content-Type", "application/json");
                              ("Authorization", "Bearer " ++ toString token)]
                             NoBody) ;;
             if negb (ok res)
             then throw (ErrorObj ("Failed to fetch courses: " ++ statusText res))
             else ret (json res))              (* return res.json(), not awaited *)
            (fun error =>
               console_error "Error in getCoursesCached:" error ;;
               message <- lift (thrown_prop error "message") ;;
               throw (new_Error
                        (js_or message
                           (VStr "An unknown error occurred while fetching courses.")))) ;;
     await p).

Definition getCourses (page : option Z) (params : option obj) : M value :=
  let page := match page with Some p => p | None => 1 end in
  let params := match params with Some p => p | None => [] end in
  session <- getServerSession ;;
  let token := optional_accessToken session in
  if negb (truthy token)
  then throw (ErrorObj "No valid session or access token found.")
  else getCoursesCached page token params.

(** The [catch] block shared, up to its texts, by [createCourse] and
    [updateCourse]. *)
Definition rethrow (label fallback : string) (error : thrown) : M promise :=
  console_error label error ;;
  errors <- lift (thrown_prop error "errors") ;;
  if truthy errors
  then throw error
  else throw (match error with
              | ErrorObj message => ErrorObj message
              | Rejection _ => ErrorObj fallback
              end).

Definition createCourse (formData : FormData) : M value :=
  p <- try_catch
         (session <- getServerSession ;;
          let token := optional_accessToken session in
          if negb (truthy token)
          then throw (ErrorObj "No valid session or access token found.")
          else
            env <- ask ;;
            res <- fetch (mkRequest (API_BASE env ++ "/courses") "POST"
                            (bearer token) (Multipart formData)) ;;
            data <- await (json res) ;;
            if negb (ok res)
            then
              errors <- (if status res =? 422 then lift (prop data "errors")
                         else ret (VBool false)) ;;
              if truthy errors
              then ret (Rejected (Rejection data))  (* return Promise.reject(data) *)
              else
                message <- lift (prop data "message") ;;
                throw (new_Error
                         (js_or message
                            (VStr ("Failed to create course. Status: "
                                   ++ number_toString (status res)))))
            else
              updateTag "courses-list" ;;
              ret (Fulfilled data))
         (rethrow "Error in createCourse:"
                  "An unknown error occurred while creating the course.") ;;
  await p.

Definition getCourseById (id : string) : M value :=
  session <- getServerSession ;;
  let token := optional_accessToken session in
  if negb (truthy token)
  then throw (ErrorObj "No valid session or access token found.")
  else
    env <- ask ;;
    res <- fetch (mkRequest (API_BASE env ++ "/courses/" ++ id) "GET"
                    [("Content-Type", "application/json");
                     ("Authorization", "Bearer " ++ toString token)]
                    NoBody) ;;
    if negb (ok res)
    then throw (ErrorObj ("Failed to fetch course: " ++ statusText res))
    else await (json res).

Definition updateCourse (id : string) (formData : FormData) : M value :=
  p <- try_catch
         (session <- getServerSession ;;
          let token := optional_accessToken session in
          if negb (truthy token)
          then throw (ErrorObj "No valid session or access token found.")
          else
            let formData := FormData_append formData "_method" "PATCH" in
            env <- ask ;;
            res <- fetch (mkRequest (API_BASE env ++ "/courses/" ++ id) "POST"
                            (bearer token) (Multipart formData)) ;;
            data <- await (json res) ;;
            if negb (ok res)
            then
              errors <- (if status res =? 422 then lift (prop data "errors")
                         else ret (VBool false)) ;;
              if truthy errors
              then ret (Rejected (Rejection data))  (* return Promise.reject(data) *)
              else
                message <- lift (prop data "message") ;;
                throw (new_Error
                         (js_or message
                            (VStr ("Failed to update course. Status: "
                                   ++ number_toString (status res)))))
            else
              updateTag "courses-list" ;;
              ret (Fulfilled data))
         (rethrow "Error in updateCourse:"
                  "An unknown error occurred while updating the course.") ;;
  await p.

Definition DeleteCourse (id : Z) : M value :=
  session <- getServerSession ;;
  let token := optional_accessToken session in
  if negb (truthy token)
  then throw (ErrorObj "No valid session or access token found.")
  else
    env <- ask ;;
    res <- fetch (mkRequest (API_BASE env ++ "/courses/" ++ number_toString id)
                    "DELETE" (bearer token) NoBody) ;;
    if negb (ok res)
    then
      (* await res.json().catch(() => ({})) *)
      let errorData := match json res with
                       | Fulfilled v => v
                       | Rejected _ => VObj []
                       end in
      message <- lift (prop errorData "message") ;;
      throw (ErrorObj ("Message: "
                       ++ toString (js_or message (VStr "Failed to delete course"))))
    else
      updateTag "courses-list" ;;
      await (json res).

End Courses.

(* ================================================================== *)
(** ** The public interface, as one type of operations *)
(* ================================================================== *)

Inductive operation : Type :=
| GroupsList (page : option Z) (params : option obj)
| GroupsGet (id : string)
| GroupsCreate (groupData : value)
| GroupsUpdate (id : string) (groupData : value)
| GroupsDelete (id : Z)
| CoursesList (page : option Z) (params : option obj)
| CoursesGet (id : string)
| CoursesCreate (formData : FormData)
| CoursesUpdate (id : string) (formData : FormData)
| CoursesDelete (id : Z).

Definition run (op : operation) : M value :=
  match op with
  | GroupsList page params => Groups.getGroups page params
  | GroupsGet id => Groups.getGroupById id
  | GroupsCreate groupData => Groups.addGroup groupData
  | GroupsUpdate id groupData => Groups.updateGroup id groupData
  | GroupsDelete id => Groups.deleteGroup id
  | CoursesList page params => Courses.getCourses page params
  | CoursesGet id => Courses.getCourseById id
  | CoursesCreate formData => Courses.createCourse formData
  | CoursesUpdate id formData => Courses.updateCourse id formData
  | CoursesDelete id => Courses.DeleteCourse id
  end.

(** The same environment at another instant. *)
Definition at_time (env : Env) (now : Z) : Env :=
  mkEnv (NEXT_PUBLIC_API_URL env) (cookie env) (session_base env) now
        (Date_parse env) (transport env).

(** The server answers every request with [res]. *)
Definition answers (env : Env) (res : Response) : Prop :=
  forall req, transport env req = Responds res.

(** No request obtains a response: [fetch] throws an error with
    message [msg]. *)
Definition unreachable (env : Env) (msg : string) : Prop :=
  forall req, transport env req = Fails msg.

(** The listing [op] asks for is not in the cache store, so that it
    reaches the transport (an operation that is not a listing always
    does). *)
Definition uncached (op : operation) (token : value) (st : State) : Prop :=
  match op with
  | GroupsList page params =>
      cache_lookup "getGroupsCached"
        [VNum (match page with Some p => p | None => 1 end); token;
         VObj (match params with Some p => p | None => [] end)]
        (cache st) = None
  | CoursesList page params =>
      cache_lookup "getCoursesCached"
        [VNum (match page with Some p => p | None => 1 end); token;
         VObj (match params with Some p => p | None => [] end)]
        (cache st) = None
  | _ => True
  end.

(** A computation that never calls [fetch]. *)
Definition quiet {A : Type} (m : M A) : Prop :=
  forall env st, fetch_calls (snd (m env st)) = fetch_calls st.

(** The ways in which an operation reports that there is no token. *)
Definition Unauthenticated (o : Outcome value) : Prop :=
  o = Throw (ErrorObj "No valid session or access token found.")
  \/ o = Throw (ErrorObj "Unauthorized")
  \/ exists r, o = Return (VObj r)
               /\ get r "success" = VBool false
               /\ get r "code" = VNum 401.

(** A result object that carries the field-error map [errors]. *)
Definition ValidationError (errors : obj) (o : Outcome value) : Prop :=
  exists r, o = Return (VObj r) /\ get r "errors" = VObj errors.

(** A result object whose code is [code]. *)
Definition Failure (code : Z) (o : Outcome value) : Prop :=
  exists r, o = Return (VObj r)
            /\ get r "success" = VBool false
            /\ get r "code" = VNum code.

Definition no_token : string := "No valid session or access token found.".

(** The example of the specification for the omission of filters. *)
Definition example_filters : obj :=
  [("search", VStr ""); ("level", VUndefined); ("division_id", VStr "3")].

(** Sample data for the concrete runs below. *)
Module Sample.

Definition token (expiresAt : value) : obj :=
  [("id", VStr "7"); ("name", VStr "Admin");
   ("email", VStr "admin@example.com");
   ("accessToken", VStr "tok"); ("expiresAt", expiresAt)].

Definition session : obj :=
  [("user", VObj [("name", VStr "Admin");
                  ("email", VStr "admin@example.com")]);
   ("expires", VStr "2030-01-01T00:00:00.000Z")].

(** Signed in, with a token that expires at time 1000; the clock reads
    [now]. *)
Definition signed_in (now : Z) (t : Request -> fetch_result) : Env :=
  mkEnv VUndefined (Some (token (VNum 1000))) session now (fun _ => None) t.

(** No session cookie at all. *)
Definition signed_out (t : Request -> fetch_result) : Env :=
  mkEnv VUndefined None session 10 (fun _ => None) t.

Definition responds (status : Z) (statusText : string) (v : value)
  : Request -> fetch_result :=
  fun _ => Responds (mkResponse status statusText (Json v)).

Definition offline : Request -> fetch_result :=
  fun _ => Fails "fetch failed".

Definition empty : State := mkState [] [] [] [].

Definition server_error : value :=
  VObj [("success", VBool false); ("message", VStr "Server Error");
        ("code", VNum 500)].

Definition not_found : value :=
  VObj [("success", VBool false); ("message", VStr "Group not found");
        ("code", VNum 404)].

Definition title_required : obj := [("title", VArr [VStr "required"])].

Definition unprocessable : value :=
  VObj [("message", VStr "The title field is required.");
        ("errors", VObj title_required)].

(** A first page of groups, already in the cache store. *)
Definition cached_page : State :=
  mkState [] [mkEntry "getGroupsCached" [VNum 1; VStr "tok"; VObj []]
                      "groups-list" (VObj [("success", VBool true)])]
          [] [].

End Sample.

(* ================================================================== *)
(** ** src/lib/auth.js: authorize *)
(* ================================================================== *)

(** [v?.k] *)
Definition optional_get (v : value) (k : string) : value :=
  match v with
  | VObj o => get o k
  | _ => VUndefined
  end.

(** [v.toString()], which throws on undefined and null. *)
Definition call_toString (v : value) : Outcome value :=
  match v with
  | VUndefined | VNull => Throw (TypeError_read v "toString")
  | _ => Return (VStr (toString v))
  end.

(** [Array.isArray(v) ? v : []] *)
Definition array_or_empty (v : value) : value :=
  match v with
  | VArr _ => v
  | _ => VArr []
  end.

(** [authorize(credentials)] of the credentials provider. [loginUser]
    comes from apiServices/auth/RegisterUser, which is not among the
    sources: it is a parameter. *)
Definition authorize (loginUser : value -> M value) (credentials : value)
  : M value :=
  let email := optional_get credentials "email" in
  let password := optional_get credentials "password" in
  if negb (truthy email) || negb (truthy password)
  then ret VNull
  else
    data <- loginUser (VObj [("email", email); ("password", password)]) ;;
    if negb (truthy (optional_get data "user"))
       || negb (truthy (optional_get data "access_token"))
    then ret VNull
    else
      user <- lift (prop data "user") ;;
      id <- lift (prop user "id") ;;
      id <- lift (call_toString id) ;;
      name <- lift (prop user "name") ;;
      email <- lift (prop user "email") ;;
      roles <- lift (prop data "roles") ;;
      permissions <- lift (prop data "permissions") ;;
      access_token <- lift (prop data "access_token") ;;
      expires_at <- lift (prop data "expires_at") ;;
      ret (VObj [("id", id);
                 ("name", name);
                 ("email", email);
                 ("roles", roles);
                 ("permissions", array_or_empty permissions);
                 ("accessToken", access_token);
                 ("expiresAt", expires_at)]).

(** The guard of [callbacks.jwt]: the token carries an expiry that lies
    before [now]. *)
Definition expired (parse : string -> time_value) (now : Z) (token : obj)
  : bool :=
  truthy (get token "expiresAt")
  && date_lt (new_Date parse (get token "expiresAt")) (Some now).

(* ================================================================== *)
(** ** components/lms/courses/CoursesData *)
(* ================================================================== *)

Module CoursesData.

(** What the component renders. The rows of the table are kept as the
    course records they are drawn from. *)
Inductive view : Type :=
| ErrorComponent (message : string)
| NotFoundComponent (message : string)
| CoursesTable (courses : list value) (pagination : value).

(** [typeof v === "string" ? v : undefined] *)
Definition string_or_undefined (v : value) : value :=
  match v with
  | VStr _ => v
  | _ => VUndefined
  end.

(** The [params] object built from the search parameters of the page. *)
Definition params (resolvedSearchParams : obj) : obj :=
  [("search", string_or_undefined (get resolvedSearchParams "search"));
   ("sort_order", string_or_undefined (get resolvedSearchParams "sort_order"));
   ("level", string_or_undefined (get resolvedSearchParams "level"));
   ("division_id", string_or_undefined (get resolvedSearchParams "division_id"));
   ("branch_id", string_or_undefined (get resolvedSearchParams "branch_id"));
   ("category_id", string_or_undefined (get resolvedSearchParams "category_id"))].

(** [typeof page === "string" ? Number(page) : 1]; [Number] is the
    conversion of a string to a number, taken to give an integer. *)
Definition page_of (Number : string -> Z) (resolvedSearchParams : obj) : Z :=
  match get resolvedSearchParams "page" with
  | VStr s => Number s
  | _ => 1
  end.

(** [courses.length === 0] *)
Definition length_is_zero (courses : value) : Outcome bool :=
  match courses with
  | VUndefined | VNull => Throw (TypeError_read courses "length")
  | VArr items => Return (match items with [] => true | _ :: _ => false end)
  | VStr s => Return (s =? "")%string
  | VObj o => Return (match get o "length" with
                      | VNum n => n =? 0
                      | _ => false
                      end)
  | VBool _ | VNum _ => Return false
  end.

Definition nullish (v : value) : bool :=
  match v with
  | VUndefined | VNull => true
  | _ => false
  end.

(** [courses.map((course, index) => <TableRow key={course.id}> ...)]:
    only an array has [map], and the first thing a row reads is
    [course.id]. *)
Definition rows (courses : value) : Outcome (list value) :=
  match courses with
  | VArr items =>
      match find nullish items with
      | Some course => Throw (TypeError_read course "id")
      | None => Return items
      end
  | _ => Throw (ErrorObj "courses.map is not a function")
  end.

(** The component, after [await searchParams]. *)
Definition CoursesData (Number : string -> Z) (resolvedSearchParams : obj)
  : M view :=
  let page := page_of Number resolvedSearchParams in
  let params := params resolvedSearchParams in
  fetched <- try_catch
               (data <- Courses.getCourses (Some page) (Some params) ;;
                ret (inl data))
               (fun error =>
                  match error with
                  | ErrorObj message => ret (inr (ErrorComponent message))
                  | Rejection _ =>
                      ret (inr (ErrorComponent "An unexpected error occurred."))
                  end) ;;
  match fetched with
  | inr early => ret early
  | inl data =>
      inner <- lift (prop data "data") ;;
      courses <- lift (prop inner "courses") ;;
      inner <- lift (prop data "data") ;;
      pagination <- lift (prop inner "pagination") ;;
      empty <- lift (length_is_zero courses) ;;
      if (empty : bool)
      then ret (NotFoundComponent "No courses found.")
      else
        items <- lift (rows courses) ;;
        ret (CoursesTable items pagination)
  end.


End CoursesData.

(* ================================================================== *)
(** ** components/lms/courses/CourseAddForm: submitForm *)
(* ================================================================== *)

Module CourseAddForm.

(** The values of the form. An optional field is [None] when it is
    undefined; a [FileList] is the list of the names of its files. *)
Record FormValues : Type := mkFormValues {
  lm_category_id : string;
  title : string;
  sub_title : option string;
  slug : option string;
  short_description : option string;
  description : option string;
  featured_image : option (list string);
  video_link : option string;
  level : string;
  end_date : option string;
  status : string;
  is_default : bool;
  branch_ids : list Z;
  price : option Z;
  discount : option Z
}.

(** [if (text) formData.append(k, text)] *)
Definition append_if_text (fd : FormData) (k : string) (text : option string)
  : FormData :=
  match text with
  | Some s => if (s =? "")%string then fd else FormData_append fd k s
  | None => fd
  end.

(** [if (n) formData.append(k, n.toString())] *)
Definition append_if_number (fd : FormData) (k : string) (n : option Z)
  : FormData :=
  match n with
  | Some n => if n =? 0 then fd else FormData_append fd k (number_toString n)
  | None => fd
  end.

(** [ids.forEach((id) => formData.append("branch_ids[]", id.toString()))] *)
Fixpoint append_branch_ids (fd : FormData) (ids : list Z) : FormData :=
  match ids with
  | [] => fd
  | id :: rest =>
      append_branch_ids (FormData_append fd "branch_ids[]" (number_toString id))
                        rest
  end.

(** The form data [submitForm] builds and hands to [onSubmit]. *)
Definition submitForm (data : FormValues) : FormData :=
  let formData : FormData := [] in
  let formData := FormData_append formData "lm_category_id" (lm_category_id data) in
  let formData := FormData_append formData "title" (title data) in
  let formData := append_if_text formData "sub_title" (sub_title data) in
  let formData := append_if_text formData "short_description"
                    (short_description data) in
  let formData := append_if_text formData "description" (description data) in
  let formData :=
    match featured_image data with
    | Some (file :: _) => (formData ++ [("featured_image", File file)])%list
    | _ => formData
    end in
  let formData := append_if_text formData "video_link" (video_link data) in
  let formData := FormData_append formData "level" (level data) in
  let formData := FormData_append formData "status" (status data) in
  let formData := FormData_append formData "is_default"
                    (if is_default data then "1" else "0") in
  let formData := append_branch_ids formData (branch_ids data) in
  let formData := append_if_number formData "price" (price data) in
  append_if_number formData "discount" (discount data).

(** What an optional text field contributes: itself when it is filled,
    nothing when it is undefined or empty. *)
Definition text_entries (text : option string) : list form_entry :=
  match text with
  | Some s => if (s =? "")%string then [] else [Text s]
  | None => []
  end.

(** What an optional number contributes: its decimal string, or nothing
    when it is undefined or zero. *)
Definition number_entries (n : option Z) : list form_entry :=
  match n with
  | Some n => if n =? 0 then [] else [Text (number_toString n)]
  | None => []
  end.

(** What the file input contributes: its first file, if any. *)
Definition file_entries (files : option (list string)) : list form_entry :=
  match files with
  | Some (file :: _) => [File file]
  | _ => []
  end.

(** The entries of a form data under one key, in order. *)
Definition getAll (fd : FormData) (k : string) : list form_entry :=
  map snd (filter (fun e => (fst e =? k)%string) fd).

(** What a key holds when it may hold [entries]. *)
Definition under (k k' : string) (entries : list form_entry)
  : list form_entry :=
  if (k =? k')%string then entries else [].

(** The keys [submitForm] can write. *)
Definition field_names : list string :=
  ["lm_category_id"; "title"; "sub_title"; "short_description"; "description";
   "featured_image"; "video_link"; "level"; "status"; "is_default";
   "branch_ids[]"; "price"; "discount"].

End CourseAddForm.

(** Sample data for signing in. *)
Module Login.

Definition data : value :=
  VObj [("user", VObj [("id", VNum 7); ("name", VStr "Admin");
                       ("email", VStr "admin@example.com")]);
        ("access_token", VStr "tok");
        ("expires_at", VNum 1000);
        ("roles", VArr [VStr "admin"]);
        ("permissions", VStr "all")].

Definition loginUser : value -> M value := fun _ => ret data.

Definition credentials : value :=
  VObj [("email", VStr "admin@example.com"); ("password", VStr "secret")].

Definition user : obj :=
  [("id", VStr "7"); ("name", VStr "Admin");
   ("email", VStr "admin@example.com");
   ("roles", VArr [VStr "admin"]);
   ("permissions", VArr []);
   ("accessToken", VStr "tok");
   ("expiresAt", VNum 1000)].

(** The environment of a later access to the session, at time [now],
    the cookie being the token the jwt callback made at sign-in, at
    time [signed]. *)
Definition later (signed now : Z) : Env :=
  mkEnv VUndefined (Some (jwt (fun _ => None) signed [] (Some user)))
        Sample.session now (fun _ => None) Sample.offline.

End Login.

(* ================================================================== *)
(** ** Vocabulary of the further properties *)
(* ================================================================== *)

(** The request carries the bearer token. *)
Definition authorized (token : value) (req : Request) : Prop :=
  In ("Authorization", "Bearer " ++ toString token) (headers req).

(** Every stored listing sits under the tag of its function. *)
Definition cache_tagged (c : list cache_entry) : Prop :=
  forall e, In e c ->
    ((entry_fn e = "getGroupsCached" -> entry_tag e = "groups-list")
     /\ (entry_fn e = "getCoursesCached" -> entry_tag e = "courses-list")).

(** The method and the address an operation uses with the transport. *)
Definition request_line (env : Env) (op : operation) : string * string :=
  match op with
  | GroupsList page params =>
      ("GET",
       API_BASE env ++ "/groups?"
       ++ URLSearchParams_toString
            (Groups.urlParams_of (match page with Some p => p | None => 1 end)
                                 (match params with Some p => p | None => [] end)))
  | GroupsGet id => ("GET", API_BASE env ++ "/groups/" ++ id)
  | GroupsCreate _ => ("POST", API_BASE env ++ "/groups")
  | GroupsUpdate id _ => ("PATCH", API_BASE env ++ "/groups/" ++ id)
  | GroupsDelete id =>
      ("DELETE", API_BASE env ++ "/groups/" ++ number_toString id)
  | CoursesList page params =>
      ("GET",
       API_BASE env ++ "/courses?"
       ++ URLSearchParams_toString
            (Courses.searchParams_of (match page with Some p => p | None => 1 end)
                                     (match params with Some p => p | None => [] end)))
  | CoursesGet id => ("GET", API_BASE env ++ "/courses/" ++ id)
  | CoursesCreate _ => ("POST", API_BASE env ++ "/courses")
  | CoursesUpdate id _ => ("POST", API_BASE env ++ "/courses/" ++ id)
  | CoursesDelete id =>
      ("DELETE", API_BASE env ++ "/courses/" ++ number_toString id)
  end.

(** The request an operation makes when it reaches the transport. *)
Definition request_of (env : Env) (token : value) (op : operation) : Request :=
  mkRequest
    (snd (request_line env op))
    (fst (request_line env op))
    match op with
    | GroupsDelete _ =>
        [("Authorization", "Bearer " ++ toString token);
         ("Content-Type", "application/json")]
    | CoursesCreate _ | CoursesUpdate _ _ | CoursesDelete _ =>
        [("Authorization", "Bearer " ++ toString token)]
    | _ =>
        [("Content-Type", "application/json");
         ("Authorization", "Bearer " ++ toString token)]
    end
    match op with
    | GroupsCreate groupData | GroupsUpdate _ groupData =>
        JSON_stringify groupData
    | CoursesCreate formData => Multipart formData
    | CoursesUpdate _ formData =>
        Multipart (FormData_append formData "_method" "PATCH")
    | _ => NoBody
    end.

(** The two listings. *)
Definition listing (op : operation) : bool :=
  match op with
  | GroupsList _ _ | CoursesList _ _ => true
  | _ => false
  end.

(** The cached function behind a listing, and the arguments it is
    called with. *)
Definition cached_call (op : operation) (token : value)
  : string * list value :=
  match op with
  | GroupsList page params =>
      ("getGroupsCached",
       [VNum (match page with Some p => p | None => 1 end); token;
        VObj (match params with Some p => p | None => [] end)])
  | CoursesList page params =>
      ("getCoursesCached",
       [VNum (match page with Some p => p | None => 1 end); token;
        VObj (match params with Some p => p | None => [] end)])
  | _ => ("", [])
  end.

(** A computation that keeps every stored listing under its tag. *)
Definition keeps_tagged {A : Type} (m : M A) : Prop :=
  forall env st,
    cache_tagged (cache st) -> cache_tagged (cache (snd (m env st))).

(** The tag of the listing of the resource an operation belongs to. *)
Definition list_tag (op : operation) : string :=
  match op with
  | GroupsList _ _ | GroupsGet _ | GroupsCreate _ | GroupsUpdate _ _
  | GroupsDelete _ => "groups-list"
  | _ => "courses-list"
  end.

(** Create, update and delete. *)
Definition mutation (op : operation) : bool :=
  match op with
  | GroupsCreate _ | GroupsUpdate _ _ | GroupsDelete _
  | CoursesCreate _ | CoursesUpdate _ _ | CoursesDelete _ => true
  | _ => false
  end.

(* ================================================================== *)
(** ** Objects *)
(* ================================================================== *)

Lemma get_set_same (o : obj) (k : string) (v : value) :
  get (set o k v) k = v.
Proof.
  induction o as [| [k' v'] o IH]; simpl.
  - now rewrite String.eqb_refl.
  - destruct (String.eqb_spec k' k) as [-> | Hne]; simpl.
    + now rewrite String.eqb_refl.
    + destruct (String.eqb_spec k' k); [contradiction | exact IH].
Qed.

Lemma get_set_other (o : obj) (k k' : string) (v : value) :
  k <> k' -> get (set o k v) k' = get o k'.
Proof.
  intros Hkk'. induction o as [| [k0 v0] o IH]; simpl.
  - destruct (String.eqb_spec k k'); [contradiction | reflexivity].
  - destruct (String.eqb_spec k0 k) as [-> | Hne]; simpl.
    + destruct (String.eqb_spec k k'); [contradiction | reflexivity].
    + destruct (String.eqb_spec k0 k'); [reflexivity | exact IH].
Qed.

Lemma hasOwnProperty_keys (o : obj) (k : string) :
  In k (keys o) -> hasOwnProperty o k = true.
Proof.
  induction o as [| [k' v'] o IH]; simpl; [tauto |].
  intros [-> | Hin].
  - now rewrite String.eqb_refl.
  - rewrite (IH Hin). apply orb_true_r.
Qed.

(* ================================================================== *)
(** ** The credential resolver *)
(* ================================================================== *)

Lemma session_callback_accessToken (session token : obj) :
  get (session_callback session token) "accessToken" = get token "accessToken".
Proof.
  unfold session_callback.
  rewrite get_set_other by discriminate.
  apply get_set_same.
Qed.

Lemma resolve_cookie (env : Env) (token : obj) :
  cookie env = Some token ->
  resolve env =
    let a := get (jwt (Date_parse env) (clock env) token None) "accessToken" in
    if truthy a then Some a else None.
Proof.
  intros Hc. unfold resolve. rewrite Hc.
  now rewrite session_callback_accessToken.
Qed.

(** What the operations read is what the resolver gives. *)
Lemma getServerSession_resolve (env : Env) (st : State) :
  exists session,
    getServerSession env st = (Return session, st)
    /\ resolve env =
         if truthy (optional_accessToken session)
         then Some (optional_accessToken session) else None.
Proof.
  unfold getServerSession, resolve.
  destruct (cookie env) as [token |].
  - eexists. split; [reflexivity |]. reflexivity.
  - exists VNull. split; reflexivity.
Qed.

Lemma getServerSession_absent (env : Env) (st : State) :
  resolve env = None ->
  exists session,
    getServerSession env st = (Return session, st)
    /\ truthy (optional_accessToken session) = false.
Proof.
  intros Hr. destruct (getServerSession_resolve env st) as (s & Hs & Hres).
  exists s. split; [exact Hs |].
  rewrite Hr in Hres. now destruct (truthy (optional_accessToken s)).
Qed.

Lemma getServerSession_present (env : Env) (st : State) (token : value) :
  resolve env = Some token ->
  exists session,
    getServerSession env st = (Return session, st)
    /\ optional_accessToken session = token
    /\ truthy token = true.
Proof.
  intros Hr. destruct (getServerSession_resolve env st) as (s & Hs & Hres).
  exists s. split; [exact Hs |].
  rewrite Hr in Hres.
  destruct (truthy (optional_accessToken s)) eqn:Ht; [| discriminate].
  injection Hres as Heq. subst token. split; [reflexivity | exact Ht].
Qed.

(** C1, as amended. A token whose [expiresAt] is exactly the resolution
    time is not yet expired: the jwt callback returns the token
    untouched and the resolver yields its access token. One millisecond
    past the expiry the access token is nulled and the resolver yields
    nothing (Absent); one millisecond before the expiry the access token
    is returned. *)
Theorem expiry_boundary (env : Env) (token : obj) (e : Z) :
  cookie env = Some token ->
  truthy (get token "expiresAt") = true ->
  new_Date (Date_parse env) (get token "expiresAt") = Some e ->
  truthy (get token "accessToken") = true ->
  (jwt (Date_parse env) e token None = token
   /\ resolve (at_time env e) = Some (get token "accessToken"))
  /\ (get (jwt (Date_parse env) (e + 1) token None) "accessToken" = VNull
      /\ resolve (at_time env (e + 1)) = None)
  /\ (jwt (Date_parse env) (e - 1) token None = token
      /\ resolve (at_time env (e - 1)) = Some (get token "accessToken")).
Proof.
  intros Hc Hexp Hdate Hacc.
  assert (Hjwt : forall now,
             jwt (Date_parse env) now token None =
               if e <? now then set token "accessToken" VNull else token).
  { intros now. unfold jwt. rewrite Hexp, Hdate. reflexivity. }
  assert (Hres : forall now,
             resolve (at_time env now) =
               if e <? now then None else Some (get token "accessToken")).
  { intros now. rewrite (resolve_cookie (at_time env now) token Hc).
    simpl. rewrite Hjwt. destruct (e <? now).
    - now rewrite get_set_same.
    - now rewrite Hacc. }
  rewrite !Hjwt, !Hres.
  rewrite Z.ltb_irrefl.
  replace (e <? e + 1) with true by (symmetry; apply Z.ltb_lt; lia).
  replace (e <? e - 1) with false by (symmetry; apply Z.ltb_ge; lia).
  rewrite get_set_same. repeat split.
Qed.

Lemma expiry_boundary_witness :
  resolve (at_time (Sample.signed_in 0 Sample.offline) 1000) = Some (VStr "tok")
  /\ resolve (at_time (Sample.signed_in 0 Sample.offline) 1001) = None
  /\ resolve (at_time (Sample.signed_in 0 Sample.offline) 999) = Some (VStr "tok").
Proof.
  pose proof (expiry_boundary (Sample.signed_in 0 Sample.offline)
                (Sample.token (VNum 1000)) 1000
                eq_refl eq_refl eq_refl eq_refl) as H.
  destruct H as ((_ & H0) & (_ & H1) & (_ & H2)).
  repeat split; assumption.
Defined.

(** C1, as the specification states it, fails: at the instant of expiry
    the jwt callback keeps the access token and the resolver returns
    it. *)
Lemma expiry_instant_not_absent :
  get (jwt (fun _ => None) 1000 (Sample.token (VNum 1000)) None) "accessToken"
    = VStr "tok"
  /\ resolve (Sample.signed_in 1000 Sample.offline) <> None.
Proof.
  split; [reflexivity |]. vm_compute. discriminate.
Qed.

(* ================================================================== *)
(** ** The query of a listing *)
(* ================================================================== *)

Lemma In_append (p : URLSearchParams) (k v k' v' : string) :
  In (k', v') (URLSearchParams_append p k v) <->
  In (k', v') p \/ (k', v') = (k, v).
Proof.
  unfold URLSearchParams_append. rewrite in_app_iff. simpl.
  intuition congruence.
Qed.

Lemma neither_undefined_nor_null (v : value) :
  negb (Groups.is_undefined v) && negb (Groups.is_null v) = true <->
  v <> VUndefined /\ v <> VNull.
Proof.
  destruct v; simpl; split; try discriminate;
    try (intros _; split; discriminate); try reflexivity.
  - intros [H _]. now contradiction H.
  - intros [_ H]. now contradiction H.
Qed.

Lemma for_in_filters_In (params : obj) (k s : string) :
  forall (ks : list string) (acc : URLSearchParams),
    (forall x, In x ks -> hasOwnProperty params x = true) ->
    In (k, s) (Groups.for_in_filters ks params acc) <->
    In (k, s) acc
    \/ (In k ks /\ get params k <> VUndefined /\ get params k <> VNull
        /\ s = toString (get params k)).
Proof.
  induction ks as [| key ks IH]; intros acc Hown; simpl.
  - tauto.
  - assert (Hks : forall x, In x ks -> hasOwnProperty params x = true)
      by (intros x Hx; apply Hown; now right).
    rewrite (Hown key) by now left.
    rewrite andb_true_r.
    pose proof (neither_undefined_nor_null (get params key)) as Hsent.
    destruct (negb (Groups.is_undefined (get params key))
              && negb (Groups.is_null (get params key))); rewrite (IH _ Hks).
    + destruct (proj1 Hsent eq_refl) as [Hu Hn].
      rewrite In_append. split.
      * intros [[Hin | Heq] | (Hin & H1 & H2 & H3)].
        -- now left.
        -- injection Heq as -> ->. right. repeat split; auto.
        -- right. repeat split; auto.
      * intros [Hin | ([<- | Hin] & H1 & H2 & H3)].
        -- now left; left.
        -- left; right. now subst s.
        -- right. repeat split; auto.
    + split.
      * intros [Hin | (Hin & H1 & H2 & H3)]; [now left | right; auto].
      * intros [Hin | ([<- | Hin] & H1 & H2 & H3)].
        -- now left.
        -- assert (false = true) by (apply Hsent; now split). discriminate.
        -- right; auto.
Qed.

Lemma forEach_filters_In (params : obj) (k s : string) :
  forall (ks : list string) (acc : URLSearchParams),
    In (k, s) (Courses.forEach_filters ks params acc) <->
    In (k, s) acc
    \/ (In k ks /\ truthy (get params k) = true
        /\ s = toString (get params k)).
Proof.
  induction ks as [| key ks IH]; intros acc; simpl.
  - tauto.
  - destruct (truthy (get params key)) eqn:Hv; rewrite IH.
    + rewrite In_append. split.
      * intros [[Hin | Heq] | (Hin & H1 & H2)].
        -- now left.
        -- injection Heq as -> ->. right. repeat split; auto.
        -- right. repeat split; auto.
      * intros [Hin | ([<- | Hin] & H1 & H2)].
        -- now left; left.
        -- left; right. now subst s.
        -- right. repeat split; auto.
    + split.
      * intros [Hin | (Hin & H1 & H2)]; [now left | right; auto].
      * intros [Hin | ([<- | Hin] & H1 & H2)];
          [now left | congruence | right; auto].
Qed.

(** C4, as amended. The listing of courses sends a filter exactly when
    its value is truthy, so the empty string, undefined and null (and
    also 0 and false) are omitted; the listing of groups sends a filter
    exactly when its value is neither undefined nor null, so the empty
    string is sent. Every filter sent is sent as the string of its
    value, after the page. *)
Theorem filter_omission (page : Z) (params : obj) (k s : string) :
  (In (k, s) (Courses.searchParams_of page params) <->
     (k, s) = ("page", number_toString page)
     \/ (In k (keys params) /\ truthy (get params k) = true
         /\ s = toString (get params k)))
  /\
  (In (k, s) (Groups.urlParams_of page params) <->
     (k, s) = ("page", number_toString page)
     \/ (In k (keys params) /\ get params k <> VUndefined
         /\ get params k <> VNull /\ s = toString (get params k))).
Proof.
  split.
  - unfold Courses.searchParams_of. rewrite forEach_filters_In.
    rewrite In_append. simpl. tauto.
  - unfold Groups.urlParams_of.
    rewrite for_in_filters_In by apply hasOwnProperty_keys.
    rewrite In_append. simpl. tauto.
Qed.

(** C4, as the specification states it, fails on the listing of groups:
    the empty search string of the example is sent, as [search=]. For
    courses the example gives [division_id=3] only. *)
Lemma groups_example_sends_empty_search :
  In ("search", "") (Groups.urlParams_of 1 example_filters)
  /\ URLSearchParams_toString (Groups.urlParams_of 1 example_filters)
     = "page=1&search=&division_id=3"
  /\ URLSearchParams_toString (Courses.searchParams_of 1 example_filters)
     = "page=1&division_id=3".
Proof.
  repeat split; vm_compute; auto.
Qed.

(* ================================================================== *)
(** ** Without a token *)
(* ================================================================== *)

(** Runs an operation up to the test of the token, which fails. *)
Ltac without_token Hr env st :=
  let session := fresh "session" in
  let Hs := fresh "Hs" in
  let Ht := fresh "Ht" in
  destruct (getServerSession_absent env st Hr) as (session & Hs & Ht);
  cbv beta delta [bind try_catch]; rewrite Hs; cbv beta iota; rewrite Ht;
  reflexivity.

Section WithoutToken.

Variables (env : Env) (st : State).
Hypothesis Hr : resolve env = None.

Lemma getGroups_without_token page params :
  Groups.getGroups page params env st =
    (Throw (ErrorObj no_token),
     logged st "Error in get groups:" (ErrorObj no_token)).
Proof. unfold Groups.getGroups. without_token Hr env st. Qed.

Lemma getGroupById_without_token id :
  Groups.getGroupById id env st =
    (Throw (ErrorObj no_token),
     logged st "Error in getGroupById:" (ErrorObj no_token)).
Proof. unfold Groups.getGroupById. without_token Hr env st. Qed.

Lemma addGroup_without_token groupData :
  Groups.addGroup groupData env st =
    (Return (VObj [("success", VBool false); ("message", VStr no_token);
                   ("errors", VObj []); ("code", VNum 401)]),
     st).
Proof. unfold Groups.addGroup. without_token Hr env st. Qed.

Lemma updateGroup_without_token id groupData :
  Groups.updateGroup id groupData env st =
    (Return (VObj [("success", VBool false); ("message", VStr no_token);
                   ("code", VNum 401)]),
     st).
Proof.
  unfold Groups.updateGroup, Groups.updateGroup_try. without_token Hr env st.
Qed.

Lemma deleteGroup_without_token id :
  Groups.deleteGroup id env st =
    (Throw (ErrorObj "Unauthorized"),
     logged st "Error in groups:" (ErrorObj "Unauthorized")).
Proof. unfold Groups.deleteGroup. without_token Hr env st. Qed.

Lemma getCourses_without_token page params :
  Courses.getCourses page params env st = (Throw (ErrorObj no_token), st).
Proof. unfold Courses.getCourses. without_token Hr env st. Qed.

Lemma getCourseById_without_token id :
  Courses.getCourseById id env st = (Throw (ErrorObj no_token), st).
Proof. unfold Courses.getCourseById. without_token Hr env st. Qed.

Lemma createCourse_without_token formData :
  Courses.createCourse formData env st =
    (Throw (ErrorObj no_token),
     logged st "Error in createCourse:" (ErrorObj no_token)).
Proof. unfold Courses.createCourse. without_token Hr env st. Qed.

Lemma updateCourse_without_token id formData :
  Courses.updateCourse id formData env st =
    (Throw (ErrorObj no_token),
     logged st "Error in updateCourse:" (ErrorObj no_token)).
Proof. unfold Courses.updateCourse. without_token Hr env st. Qed.

Lemma DeleteCourse_without_token id :
  Courses.DeleteCourse id env st = (Throw (ErrorObj no_token), st).
Proof. unfold Courses.DeleteCourse. without_token Hr env st. Qed.

End WithoutToken.

(** C2. When the session yields no access token, every operation of
    the two resource clients ends in an Unauthenticated outcome, and
    [fetch] has not been called. *)
Theorem unauthenticated_short_circuit (op : operation) (env : Env) (st : State) :
  resolve env = None ->
  Unauthenticated (fst (run op env st))
  /\ fetch_calls (snd (run op env st)) = fetch_calls st.
Proof.
  intros Hr. unfold Unauthenticated.
  destruct op; simpl run.
  - rewrite getGroups_without_token by exact Hr. simpl. auto.
  - rewrite getGroupById_without_token by exact Hr. simpl. auto.
  - rewrite addGroup_without_token by exact Hr. simpl.
    split; [| reflexivity]. right; right. eexists. repeat split.
  - rewrite updateGroup_without_token by exact Hr. simpl.
    split; [| reflexivity]. right; right. eexists. repeat split.
  - rewrite deleteGroup_without_token by exact Hr. simpl. auto.
  - rewrite getCourses_without_token by exact Hr. simpl. auto.
  - rewrite getCourseById_without_token by exact Hr. simpl. auto.
  - rewrite createCourse_without_token by exact Hr. simpl. auto.
  - rewrite updateCourse_without_token by exact Hr. simpl. auto.
  - rewrite DeleteCourse_without_token by exact Hr. simpl. auto.
Qed.

Lemma unauthenticated_short_circuit_witness :
  Unauthenticated
    (fst (run (GroupsDelete 7) (Sample.signed_in 1001 Sample.offline)
              Sample.empty))
  /\ fetch_calls
       (snd (run (GroupsDelete 7) (Sample.signed_in 1001 Sample.offline)
                 Sample.empty)) = [].
Proof.
  apply (unauthenticated_short_circuit (GroupsDelete 7)
           (Sample.signed_in 1001 Sample.offline) Sample.empty).
  reflexivity.
Defined.

(** C10. Without a token, [addGroup] and [updateGroup] return a result
    object with [success: false] and [code: 401] and do not throw, while
    [getGroups], [getGroupById], [deleteGroup] and the five operations on
    courses throw an [Error], whose message is "Unauthorized" for
    [deleteGroup] and "No valid session or access token found." for the
    others. *)
Theorem unauthenticated_surfaced_inconsistently (env : Env) (st : State) :
  resolve env = None ->
  (forall groupData,
      fst (Groups.addGroup groupData env st) =
        Return (VObj [("success", VBool false);
                      ("message", VStr "No valid session or access token found.");
                      ("errors", VObj []);
                      ("code", VNum 401)]))
  /\ (forall id groupData,
         fst (Groups.updateGroup id groupData env st) =
           Return (VObj [("success", VBool false);
                         ("message", VStr "No valid session or access token found.");
                         ("code", VNum 401)]))
  /\ (forall page params,
         fst (Groups.getGroups page params env st) =
           Throw (ErrorObj "No valid session or access token found."))
  /\ (forall id,
         fst (Groups.getGroupById id env st) =
           Throw (ErrorObj "No valid session or access token found."))
  /\ (forall id,
         fst (Groups.deleteGroup id env st) = Throw (ErrorObj "Unauthorized"))
  /\ (forall op,
         match op with
         | CoursesList _ _ | CoursesGet _ | CoursesCreate _
         | CoursesUpdate _ _ | CoursesDelete _ =>
             fst (run op env st) =
               Throw (ErrorObj "No valid session or access token found.")
         | _ => True
         end).
Proof.
  intros Hr. repeat split; intros.
  - now rewrite addGroup_without_token.
  - now rewrite updateGroup_without_token.
  - now rewrite getGroups_without_token.
  - now rewrite getGroupById_without_token.
  - now rewrite deleteGroup_without_token.
  - destruct op; simpl run; trivial.
    + now rewrite getCourses_without_token.
    + now rewrite getCourseById_without_token.
    + now rewrite createCourse_without_token.
    + now rewrite updateCourse_without_token.
    + now rewrite DeleteCourse_without_token.
Qed.

Lemma unauthenticated_surfaced_inconsistently_witness :
  fst (Groups.addGroup (VObj []) (Sample.signed_out Sample.offline) Sample.empty)
  = Return (VObj [("success", VBool false);
                  ("message", VStr "No valid session or access token found.");
                  ("errors", VObj []);
                  ("code", VNum 401)])
  /\ fst (Groups.deleteGroup 7 (Sample.signed_out Sample.offline) Sample.empty)
     = Throw (ErrorObj "Unauthorized").
Proof.
  pose proof (unauthenticated_surfaced_inconsistently
                (Sample.signed_out Sample.offline) Sample.empty eq_refl) as H.
  destruct H as (Hadd & _ & _ & _ & Hdel & _).
  split; [apply Hadd | apply Hdel].
Defined.

(* ================================================================== *)
(** ** With a token: the answers of the server *)
(* ================================================================== *)

(** Runs an operation up to the call of [fetch]. *)
Ltac with_token Hr env st :=
  let session := fresh "session" in
  let Hs := fresh "Hs" in
  let Htok := fresh "Htok" in
  let Ht := fresh "Ht" in
  destruct (getServerSession_present env st _ Hr) as (session & Hs & Htok & Ht);
  cbv beta delta [bind try_catch]; rewrite Hs; cbv beta iota;
  rewrite Htok, Ht; cbv beta iota delta [negb ask fetch].

(** Takes the branch of [use_cache] that runs the body. *)
Ltac cache_miss Hmiss :=
  match goal with
  | |- context [cache_lookup ?fn ?args ?c] =>
      replace (cache_lookup fn args c) with (@None value)
        by (symmetry; exact Hmiss)
  end.

Section Unprocessable.

Variables (env : Env) (st : State) (token : value).
Variables (res : Response) (data errors : obj).
Hypothesis Hr : resolve env = Some token.
Hypothesis Hanswers : answers env res.
Hypothesis Hstatus : status res = 422.
Hypothesis Hpayload : payload res = Json (VObj data).
Hypothesis Herrors : get data "errors" = VObj errors.

Lemma unprocessable_not_ok : ok res = false.
Proof. unfold ok. now rewrite Hstatus. Qed.

Lemma addGroup_unprocessable groupData :
  fst (Groups.addGroup groupData env st) =
    Return (VObj [("success", VBool false);
                  ("message", js_or (get data "message")
                                (VStr "Failed to add group."));
                  ("errors", VObj errors);
                  ("code", VNum 422)]).
Proof.
  unfold Groups.addGroup. with_token Hr env st.
  rewrite Hanswers. unfold json. rewrite Hpayload. simpl.
  rewrite unprocessable_not_ok. simpl.
  now rewrite Herrors, Hstatus.
Qed.

Lemma updateGroup_unprocessable id groupData :
  fst (Groups.updateGroup id groupData env st) =
    Return (VObj [("success", VBool false);
                  ("message", js_or (get data "message")
                                (VStr "Failed to update group."));
                  ("errors", VObj errors);
                  ("code", VNum 422)]).
Proof.
  unfold Groups.updateGroup, Groups.updateGroup_try. with_token Hr env st.
  rewrite Hanswers. unfold json. rewrite Hpayload. simpl.
  rewrite unprocessable_not_ok. simpl.
  now rewrite Herrors, Hstatus.
Qed.

Lemma createCourse_unprocessable formData :
  fst (Courses.createCourse formData env st) = Throw (Rejection (VObj data)).
Proof.
  unfold Courses.createCourse. with_token Hr env st.
  rewrite Hanswers. unfold json. rewrite Hpayload. simpl.
  rewrite unprocessable_not_ok, Hstatus. simpl.
  now rewrite Herrors.
Qed.

Lemma updateCourse_unprocessable id formData :
  fst (Courses.updateCourse id formData env st) = Throw (Rejection (VObj data)).
Proof.
  unfold Courses.updateCourse. with_token Hr env st.
  rewrite Hanswers. unfold json. rewrite Hpayload. simpl.
  rewrite unprocessable_not_ok, Hstatus. simpl.
  now rewrite Herrors.
Qed.

End Unprocessable.

(** C3, as amended. When the server answers 422 with a body that holds
    a field-error map, [addGroup] and [updateGroup] return a result
    object that carries the map, with code 422, and do not throw;
    [createCourse] and [updateCourse] return no value: they reject with
    the body of the response, which holds the map. *)
Theorem validation_error_on_422 (env : Env) (st : State) (token : value)
  (res : Response) (data errors : obj) :
  resolve env = Some token ->
  answers env res ->
  status res = 422 ->
  payload res = Json (VObj data) ->
  get data "errors" = VObj errors ->
  (forall groupData,
      ValidationError errors (fst (Groups.addGroup groupData env st))
      /\ Failure 422 (fst (Groups.addGroup groupData env st)))
  /\ (forall id groupData,
         ValidationError errors (fst (Groups.updateGroup id groupData env st))
         /\ Failure 422 (fst (Groups.updateGroup id groupData env st)))
  /\ (forall formData,
         fst (Courses.createCourse formData env st)
         = Throw (Rejection (VObj data)))
  /\ (forall id formData,
         fst (Courses.updateCourse id formData env st)
         = Throw (Rejection (VObj data))).
Proof.
  intros Hr Ha Hs Hp He. repeat split; intros.
  - rewrite (addGroup_unprocessable env st token res data errors) by assumption.
    eexists. split; reflexivity.
  - rewrite (addGroup_unprocessable env st token res data errors) by assumption.
    eexists. repeat split.
  - rewrite (updateGroup_unprocessable env st token res data errors) by assumption.
    eexists. split; reflexivity.
  - rewrite (updateGroup_unprocessable env st token res data errors) by assumption.
    eexists. repeat split.
  - now apply (createCourse_unprocessable env st token res data errors).
  - now apply (updateCourse_unprocessable env st token res data errors).
Qed.

Lemma validation_error_on_422_witness :
  ValidationError Sample.title_required
    (fst (Groups.addGroup (VObj [("group_name", VStr "")])
            (Sample.signed_in 10
               (Sample.responds 422 "Unprocessable Content" Sample.unprocessable))
            Sample.empty))
  /\ fst (Courses.updateCourse "3" []
            (Sample.signed_in 10
               (Sample.responds 422 "Unprocessable Content" Sample.unprocessable))
            Sample.empty)
     = Throw (Rejection Sample.unprocessable).
Proof.
  pose proof (validation_error_on_422
                (Sample.signed_in 10
                   (Sample.responds 422 "Unprocessable Content"
                      Sample.unprocessable))
                Sample.empty (VStr "tok")
                (mkResponse 422 "Unprocessable Content" (Json Sample.unprocessable))
                [("message", VStr "The title field is required.");
                 ("errors", VObj Sample.title_required)]
                Sample.title_required
                eq_refl (fun _ => eq_refl) eq_refl eq_refl eq_refl) as H.
  destruct H as (Hadd & _ & _ & Hupd).
  split; [apply Hadd | apply Hupd].
Defined.

(** C3, as the specification states it, fails on courses: answered 422
    with the field errors of the example, [createCourse] returns nothing
    and throws the body. *)
Lemma createCourse_422_throws :
  fst (Courses.createCourse [("title", Text "")]
         (Sample.signed_in 10
            (Sample.responds 422 "Unprocessable Content" Sample.unprocessable))
         Sample.empty)
  = Throw (Rejection Sample.unprocessable)
  /\ ~ ValidationError Sample.title_required
         (fst (Courses.createCourse [("title", Text "")]
                 (Sample.signed_in 10
                    (Sample.responds 422 "Unprocessable Content"
                       Sample.unprocessable))
                 Sample.empty)).
Proof.
  split; [reflexivity |].
  intros (r & Hreturn & _). vm_compute in Hreturn. discriminate.
Qed.

(** C5. With a valid token and nothing cached, a listing of groups that
    the server answers with status 500 does not fail: [getGroupsCached]
    never looks at [res.ok], so the body of the failed response is
    returned as the listing, and is stored in the cache under
    "groups-list". The listing of courses, on the same answer, throws. *)
Theorem getGroups_returns_failed_response :
  Groups.getGroups (Some 1) (Some [])
    (Sample.signed_in 10
       (Sample.responds 500 "Internal Server Error" Sample.server_error))
    Sample.empty
  = (Return Sample.server_error,
     mkState
       [mkRequest "http://127.0.0.1:8000/api/v1/groups?page=1" "GET"
                  [("Content-Type", "application/json");
                   ("Authorization", "Bearer tok")] NoBody]
       [mkEntry "getGroupsCached" [VNum 1; VStr "tok"; VObj []]
                "groups-list" Sample.server_error]
       [] [])
  /\ fst (Courses.getCourses (Some 1) (Some [])
            (Sample.signed_in 10
               (Sample.responds 500 "Internal Server Error" Sample.server_error))
            Sample.empty)
     = Throw (ErrorObj "Failed to fetch courses: Internal Server Error").
Proof.
  split; reflexivity.
Qed.

(** The same, for every answer: whatever the status, the listing of
    groups returns the body of the response. *)
Lemma getGroups_ignores_status (env : Env) (st : State) (token : value)
  (res : Response) (data : value) page params :
  resolve env = Some token ->
  answers env res ->
  payload res = Json data ->
  uncached (GroupsList page params) token st ->
  fst (Groups.getGroups page params env st) = Return data.
Proof.
  intros Hr Ha Hp Hmiss.
  unfold Groups.getGroups. with_token Hr env st.
  unfold Groups.getGroupsCached, use_cache. cache_miss Hmiss.
  cbv beta iota delta [bind try_catch ask fetch].
  rewrite Ha. unfold json. rewrite Hp. reflexivity.
Qed.

Lemma new_Error_is_Error (v : value) : exists m, new_Error v = ErrorObj m.
Proof. destruct v; eexists; reflexivity. Qed.

(** Case analysis on what an operation branches on once the response is
    known. *)
Ltac settle :=
  repeat (cbv beta iota delta [Courses.rethrow bind lift throw ret await
                                 console_error updateTag];
          simpl;
          match goal with
          | |- context [new_Error ?v] =>
              let m := fresh "m" in
              let Hm := fresh "Hm" in
              destruct (new_Error_is_Error v) as [m Hm]; rewrite Hm
          | |- context [ok ?res] => destruct (ok res)
          | |- context [status ?res =? 422] => destruct (status res =? 422)
          | |- context [match prop ?v ?k with _ => _ end] => destruct (prop v k)
          | |- context [truthy ?v] => destruct (truthy v)
          | |- context [match ?e with ErrorObj _ => _ | Rejection _ => _ end] =>
              destruct e
          end);
  simpl; try reflexivity.

Section Answered.

Variables (env : Env) (st : State) (token : value).
Variables (res : Response) (data : value).
Hypothesis Hr : resolve env = Some token.
Hypothesis Hanswers : answers env res.
Hypothesis Hpayload : payload res = Json data.

(** Five of the six mutations update the tag of the listing exactly
    when the response is a success. *)
Lemma addGroup_tags groupData :
  updated_tags (snd (Groups.addGroup groupData env st)) =
    (updated_tags st ++ if ok res then ["groups-list"] else [])%list.
Proof.
  unfold Groups.addGroup. with_token Hr env st.
  rewrite Hanswers. unfold json. rewrite Hpayload.
  settle; rewrite ?app_nil_r; reflexivity.
Qed.

Lemma updateGroup_tags id groupData :
  updated_tags (snd (Groups.updateGroup id groupData env st)) =
    (updated_tags st ++ if ok res then ["groups-list"] else [])%list.
Proof.
  unfold Groups.updateGroup, Groups.updateGroup_try. with_token Hr env st.
  rewrite Hanswers. unfold json. rewrite Hpayload.
  settle; rewrite ?app_nil_r; reflexivity.
Qed.

Lemma createCourse_tags formData :
  updated_tags (snd (Courses.createCourse formData env st)) =
    (updated_tags st ++ if ok res then ["courses-list"] else [])%list.
Proof.
  unfold Courses.createCourse. with_token Hr env st.
  rewrite Hanswers. unfold json. rewrite Hpayload.
  settle; rewrite ?app_nil_r; reflexivity.
Qed.

Lemma updateCourse_tags id formData :
  updated_tags (snd (Courses.updateCourse id formData env st)) =
    (updated_tags st ++ if ok res then ["courses-list"] else [])%list.
Proof.
  unfold Courses.updateCourse. with_token Hr env st.
  rewrite Hanswers. unfold json. rewrite Hpayload.
  settle; rewrite ?app_nil_r; reflexivity.
Qed.

Lemma DeleteCourse_tags id :
  updated_tags (snd (Courses.DeleteCourse id env st)) =
    (updated_tags st ++ if ok res then ["courses-list"] else [])%list.
Proof.
  unfold Courses.DeleteCourse. with_token Hr env st.
  rewrite Hanswers. unfold json. rewrite Hpayload.
  settle; rewrite ?app_nil_r; reflexivity.
Qed.

(** The sixth updates it whatever the status. *)
Lemma deleteGroup_tags id :
  updated_tags (snd (Groups.deleteGroup id env st)) =
    (updated_tags st ++ ["groups-list"])%list.
Proof.
  unfold Groups.deleteGroup. with_token Hr env st.
  rewrite Hanswers. unfold json. rewrite Hpayload.
  settle.
Qed.

End Answered.

(** C6. A deletion of a group that the server refuses with status 404
    still updates the tag: [deleteGroup] calls [updateTag] whatever the
    status, so the cached listing is dropped although nothing was
    deleted, and the body of the refusal is returned. *)
Theorem deleteGroup_updates_tag_on_failure :
  Groups.deleteGroup 7
    (Sample.signed_in 10 (Sample.responds 404 "Not Found" Sample.not_found))
    Sample.cached_page
  = (Return Sample.not_found,
     mkState
       [mkRequest "http://127.0.0.1:8000/api/v1/groups/7" "DELETE"
                  [("Authorization", "Bearer tok");
                   ("Content-Type", "application/json")] NoBody]
       []
       ["groups-list"]
       [])
  /\ snd (Courses.DeleteCourse 7
            (Sample.signed_in 10 (Sample.responds 404 "Not Found" Sample.not_found))
            Sample.cached_page)
     = mkState
         [mkRequest "http://127.0.0.1:8000/api/v1/courses/7" "DELETE"
                    [("Authorization", "Bearer tok")] NoBody]
         (cache Sample.cached_page)
         []
         [].
Proof.
  split; reflexivity.
Qed.

(* ================================================================== *)
(** ** With a token: no answer from the server *)
(* ================================================================== *)

Section Unreachable.

Variables (env : Env) (st : State) (token : value) (msg : string).
Hypothesis Hr : resolve env = Some token.
Hypothesis Hdown : unreachable env msg.

Lemma getGroups_unreachable page params :
  uncached (GroupsList page params) token st ->
  fst (Groups.getGroups page params env st) = Throw (ErrorObj msg).
Proof.
  intros Hmiss.
  unfold Groups.getGroups. with_token Hr env st.
  unfold Groups.getGroupsCached, use_cache. cache_miss Hmiss.
  cbv beta iota delta [bind try_catch ask fetch].
  rewrite Hdown. reflexivity.
Qed.

Lemma getGroupById_unreachable id :
  fst (Groups.getGroupById id env st) = Throw (ErrorObj msg).
Proof.
  unfold Groups.getGroupById. with_token Hr env st.
  rewrite Hdown. reflexivity.
Qed.

Lemma addGroup_unreachable groupData :
  fst (Groups.addGroup groupData env st) =
    Return (VObj [("success", VBool false);
                  ("message", js_or (VStr msg)
                                (VStr "An unexpected error occurred."));
                  ("code", VNum 500)]).
Proof.
  unfold Groups.addGroup. with_token Hr env st.
  rewrite Hdown. reflexivity.
Qed.

Lemma updateGroup_unreachable id groupData :
  fst (Groups.updateGroup id groupData env st) =
    Return (VObj [("success", VBool false);
                  ("message", VStr "An unexpected error occurred.");
                  ("code", VNum 500)]).
Proof.
  unfold Groups.updateGroup, Groups.updateGroup_try. with_token Hr env st.
  rewrite Hdown. reflexivity.
Qed.

Lemma deleteGroup_unreachable id :
  fst (Groups.deleteGroup id env st) = Throw (ErrorObj msg).
Proof.
  unfold Groups.deleteGroup. with_token Hr env st.
  rewrite Hdown. reflexivity.
Qed.

Lemma getCourses_unreachable page params :
  uncached (CoursesList page params) token st ->
  fst (Courses.getCourses page params env st) =
    Throw (new_Error
             (js_or (VStr msg)
                (VStr "An unknown error occurred while fetching courses."))).
Proof.
  intros Hmiss.
  unfold Courses.getCourses. with_token Hr env st.
  unfold Courses.getCoursesCached, use_cache. cache_miss Hmiss.
  cbv beta iota delta [bind try_catch ask fetch].
  rewrite Hdown. reflexivity.
Qed.

Lemma getCourseById_unreachable id :
  fst (Courses.getCourseById id env st) = Throw (ErrorObj msg).
Proof.
  unfold Courses.getCourseById. with_token Hr env st.
  rewrite Hdown. reflexivity.
Qed.

Lemma createCourse_unreachable formData :
  fst (Courses.createCourse formData env st) = Throw (ErrorObj msg).
Proof.
  unfold Courses.createCourse. with_token Hr env st.
  rewrite Hdown. reflexivity.
Qed.

Lemma updateCourse_unreachable id formData :
  fst (Courses.updateCourse id formData env st) = Throw (ErrorObj msg).
Proof.
  unfold Courses.updateCourse. with_token Hr env st.
  rewrite Hdown. reflexivity.
Qed.

Lemma DeleteCourse_unreachable id :
  fst (Courses.DeleteCourse id env st) = Throw (ErrorObj msg).
Proof.
  unfold Courses.DeleteCourse. with_token Hr env st.
  rewrite Hdown. reflexivity.
Qed.

End Unreachable.

(** C7, as amended. When [fetch] throws without a response, no
    operation produces a result with code 0. [addGroup] returns a
    failure result with code 500 and the message of the error (the
    generic message when that one is empty); [updateGroup] returns a
    failure result with code 500 and the generic message; every other
    operation throws an [Error] that carries the message of the
    transport error (for the listing of courses, a fixed message when
    that one is empty). *)
Theorem network_failure_outcome (op : operation) (env : Env) (st : State)
  (token : value) (msg : string) :
  resolve env = Some token ->
  unreachable env msg ->
  uncached op token st ->
  match op with
  | GroupsCreate _ =>
      fst (run op env st) =
        Return (VObj [("success", VBool false);
                      ("message", VStr (if (msg =? "")%string
                                        then "An unexpected error occurred."
                                        else msg));
                      ("code", VNum 500)])
  | GroupsUpdate _ _ =>
      fst (run op env st) =
        Return (VObj [("success", VBool false);
                      ("message", VStr "An unexpected error occurred.");
                      ("code", VNum 500)])
  | CoursesList _ _ =>
      fst (run op env st) =
        Throw (ErrorObj (if (msg =? "")%string
                         then "An unknown error occurred while fetching courses."
                         else msg))
  | _ => fst (run op env st) = Throw (ErrorObj msg)
  end
  /\ ~ Failure 0 (fst (run op env st)).
Proof.
  intros Hr Hdown Hmiss.
  assert (Hor : forall d, js_or (VStr msg) (VStr d)
                          = VStr (if (msg =? "")%string then d else msg)).
  { intros d. unfold js_or. simpl. now destruct (msg =? "")%string. }
  destruct op; simpl run.
  - rewrite (getGroups_unreachable env st token msg) by assumption.
    split; [reflexivity | intros (r & H & _); discriminate].
  - rewrite (getGroupById_unreachable env st token msg) by assumption.
    split; [reflexivity | intros (r & H & _); discriminate].
  - rewrite (addGroup_unreachable env st token msg) by assumption.
    rewrite Hor. split; [reflexivity |].
    intros (r & H & _ & Hcode). injection H as <-. discriminate.
  - rewrite (updateGroup_unreachable env st token msg) by assumption.
    split; [reflexivity |].
    intros (r & H & _ & Hcode). injection H as <-. discriminate.
  - rewrite (deleteGroup_unreachable env st token msg) by assumption.
    split; [reflexivity | intros (r & H & _); discriminate].
  - rewrite (getCourses_unreachable env st token msg) by assumption.
    rewrite Hor. split; [reflexivity | intros (r & H & _); discriminate].
  - rewrite (getCourseById_unreachable env st token msg) by assumption.
    split; [reflexivity | intros (r & H & _); discriminate].
  - rewrite (createCourse_unreachable env st token msg) by assumption.
    split; [reflexivity | intros (r & H & _); discriminate].
  - rewrite (updateCourse_unreachable env st token msg) by assumption.
    split; [reflexivity | intros (r & H & _); discriminate].
  - rewrite (DeleteCourse_unreachable env st token msg) by assumption.
    split; [reflexivity | intros (r & H & _); discriminate].
Qed.

Lemma network_failure_outcome_witness :
  fst (run (GroupsList None None) (Sample.signed_in 10 Sample.offline)
           Sample.empty)
  = Throw (ErrorObj "fetch failed").
Proof.
  apply (network_failure_outcome (GroupsList None None)
           (Sample.signed_in 10 Sample.offline) Sample.empty
           (VStr "tok") "fetch failed"
           eq_refl (fun _ => eq_refl) eq_refl).
Defined.

(** C7, as the specification states it, fails: when [fetch] throws,
    [addGroup] returns code 500, not 0, and [getGroups] throws. *)
Lemma network_failure_not_code_0 :
  fst (Groups.addGroup (VObj [("group_name", VStr "A")])
         (Sample.signed_in 10 Sample.offline) Sample.empty)
  = Return (VObj [("success", VBool false); ("message", VStr "fetch failed");
                  ("code", VNum 500)])
  /\ ~ Failure 0
         (fst (Groups.addGroup (VObj [("group_name", VStr "A")])
                 (Sample.signed_in 10 Sample.offline) Sample.empty))
  /\ fst (Groups.getGroups None None
            (Sample.signed_in 10 Sample.offline) Sample.empty)
     = Throw (ErrorObj "fetch failed").
Proof.
  split; [reflexivity |]. split; [| reflexivity].
  intros (r & Hreturn & _ & Hcode). vm_compute in Hreturn.
  injection Hreturn as <-. vm_compute in Hcode. discriminate.
Qed.

(* ================================================================== *)
(** ** The requests of an update *)
(* ================================================================== *)

Lemma quiet_ret {A} (a : A) : quiet (ret a).
Proof. intros env st. reflexivity. Qed.

Lemma quiet_throw {A} (e : thrown) : quiet (@throw A e).
Proof. intros env st. reflexivity. Qed.

Lemma quiet_lift {A} (o : Outcome A) : quiet (lift o).
Proof. intros env st. reflexivity. Qed.

Lemma quiet_await (p : promise) : quiet (await p).
Proof. destruct p; [apply quiet_ret | apply quiet_throw]. Qed.

Lemma quiet_updateTag (tag : string) : quiet (updateTag tag).
Proof. intros env st. reflexivity. Qed.

Lemma quiet_console_error (label : string) (e : thrown) :
  quiet (console_error label e).
Proof. intros env st. reflexivity. Qed.

Lemma quiet_bind {A B} (m : M A) (k : A -> M B) :
  quiet m -> (forall a, quiet (k a)) -> quiet (bind m k).
Proof.
  intros Hm Hk env st. unfold bind.
  specialize (Hm env st). destruct (m env st) as [[a | e] st1]; simpl in *.
  - now rewrite Hk.
  - exact Hm.
Qed.

Lemma quiet_if {A} (b : bool) (m1 m2 : M A) :
  quiet m1 -> quiet m2 -> quiet (if b then m1 else m2).
Proof. now destruct b. Qed.

Lemma quiet_rethrow (label fallback : string) (e : thrown) :
  quiet (Courses.rethrow label fallback e).
Proof.
  unfold Courses.rethrow.
  apply quiet_bind; [apply quiet_console_error | intros _].
  apply quiet_bind; [apply quiet_lift | intros errors].
  apply quiet_if; apply quiet_throw.
Qed.

Create HintDb quiet.

#[local] Hint Resolve quiet_ret quiet_throw quiet_lift quiet_await
  quiet_updateTag quiet_console_error quiet_if quiet_rethrow : quiet.
#[local] Hint Extern 2 (quiet (bind _ _)) =>
  apply quiet_bind; [| intro] : quiet.

(** A continuation, or a handler, that makes no call adds none. *)
Lemma calls_bind {A B} (m : M A) (k : A -> M B) env st :
  (forall a, quiet (k a)) ->
  fetch_calls (snd (bind m k env st)) = fetch_calls (snd (m env st)).
Proof.
  intros Hk. unfold bind. destruct (m env st) as [[a | e] st1]; simpl.
  - apply Hk.
  - reflexivity.
Qed.

Lemma calls_try_catch {A} (m : M A) (h : thrown -> M A) env st :
  (forall e, quiet (h e)) ->
  fetch_calls (snd (try_catch m h env st)) = fetch_calls (snd (m env st)).
Proof.
  intros Hh. unfold try_catch. destruct (m env st) as [[a | e] st1]; simpl.
  - reflexivity.
  - apply Hh.
Qed.

Lemma calls_fetch {B} (req : Request) (k : Response -> M B) env st :
  (forall res, quiet (k res)) ->
  fetch_calls (snd (bind (fetch req) k env st))
  = (fetch_calls st ++ [req])%list.
Proof.
  intros Hk. rewrite calls_bind by exact Hk.
  unfold fetch. now destruct (transport env req).
Qed.

(** The session read, then the test of the token, which passes. *)
Lemma bind_getServerSession {B} (k : value -> M B) env st token :
  resolve env = Some token ->
  exists session,
    bind getServerSession k env st = k session env st
    /\ optional_accessToken session = token
    /\ truthy token = true.
Proof.
  intros Hr.
  destruct (getServerSession_present env st token Hr) as (s & Hs & Htok & Ht).
  exists s. unfold bind. now rewrite Hs.
Qed.

Ltac signed_in Hr env st :=
  match goal with
  | |- context [bind getServerSession ?k env st] =>
      let session := fresh "session" in
      let Hrun := fresh "Hrun" in
      destruct (bind_getServerSession k env st _ Hr)
        as (session & Hrun & Htok & Ht);
      rewrite Hrun
  end.

Lemma updateCourse_request (env : Env) (st : State) (token : value)
  (id : string) (formData : FormData) :
  resolve env = Some token ->
  fetch_calls (snd (Courses.updateCourse id formData env st)) =
    (fetch_calls st ++
     [mkRequest (API_BASE env ++ "/courses/" ++ id)%string "POST"
                [("Authorization", ("Bearer " ++ toString token)%string)]
                (Multipart (formData ++ [("_method", Text "PATCH")]))])%list.
Proof.
  intros Hr. unfold Courses.updateCourse.
  rewrite calls_bind by auto with quiet.
  rewrite calls_try_catch by auto with quiet.
  signed_in Hr env st. cbv beta zeta. rewrite Htok, Ht. cbn [negb].
  change (fetch_calls (snd (bind ask ?k env st)))
    with (fetch_calls (snd (k env env st))).
  cbv beta. rewrite calls_fetch.
  - reflexivity.
  - intros res. apply quiet_bind; [apply quiet_await | intros data].
    apply quiet_if.
    + apply quiet_bind; [auto with quiet | intros errors].
      apply quiet_if; [auto with quiet |].
      apply quiet_bind; auto with quiet.
    + apply quiet_bind; auto with quiet.
Qed.

Lemma updateGroup_request (env : Env) (st : State) (token : value)
  (id : string) (groupData : value) :
  resolve env = Some token ->
  fetch_calls (snd (Groups.updateGroup id groupData env st)) =
    (fetch_calls st ++
     [mkRequest (API_BASE env ++ "/groups/" ++ id)%string "PATCH"
                [("Content-Type", "application/json");
                 ("Authorization", ("Bearer " ++ toString token)%string)]
                (JSON_stringify groupData)])%list.
Proof.
  intros Hr. unfold Groups.updateGroup.
  rewrite calls_try_catch by auto with quiet.
  unfold Groups.updateGroup_try.
  signed_in Hr env st. cbv beta zeta. rewrite Htok, Ht. cbn [negb].
  change (fetch_calls (snd (bind ask ?k env st)))
    with (fetch_calls (snd (k env env st))).
  cbv beta. rewrite calls_fetch.
  - reflexivity.
  - intros res. apply quiet_bind; [apply quiet_await | intros data].
    apply quiet_if.
    + apply quiet_bind; [auto with quiet | intros message].
      apply quiet_bind; auto with quiet.
    + apply quiet_bind; auto with quiet.
Qed.

Lemma calls_use_cache (fn : string) (args : list value) (tag : string)
  (body : M value) env st :
  cache_lookup fn args (cache st) = None ->
  fetch_calls (snd (use_cache fn args tag body env st))
  = fetch_calls (snd (body env st)).
Proof.
  intros Hmiss. unfold use_cache. rewrite Hmiss.
  now destruct (body env st) as [[v | e] st1].
Qed.

(** A listing that is not in the cache calls [fetch] once, with the
    query built from the page and the filters. *)
Lemma getGroups_request (env : Env) (st : State) (token : value) page params :
  resolve env = Some token ->
  uncached (GroupsList (Some page) (Some params)) token st ->
  fetch_calls (snd (Groups.getGroups (Some page) (Some params) env st)) =
    (fetch_calls st ++
     [mkRequest (API_BASE env ++ "/groups?"
                 ++ URLSearchParams_toString (Groups.urlParams_of page params))%string
                "GET"
                [("Content-Type", "application/json");
                 ("Authorization", ("Bearer " ++ toString token)%string)]
                NoBody])%list.
Proof.
  intros Hr Hmiss. unfold Groups.getGroups.
  rewrite calls_try_catch by auto with quiet.
  signed_in Hr env st. cbv beta zeta. rewrite Htok, Ht. cbn [negb].
  unfold Groups.getGroupsCached.
  rewrite calls_use_cache by exact Hmiss.
  rewrite calls_try_catch by auto with quiet.
  change (fetch_calls (snd (bind ask ?k env st)))
    with (fetch_calls (snd (k env env st))).
  cbv beta. rewrite calls_fetch by auto with quiet. reflexivity.
Qed.

Lemma getCourses_request (env : Env) (st : State) (token : value) page params :
  resolve env = Some token ->
  uncached (CoursesList (Some page) (Some params)) token st ->
  fetch_calls (snd (Courses.getCourses (Some page) (Some params) env st)) =
    (fetch_calls st ++
     [mkRequest (API_BASE env ++ "/courses?"
                 ++ URLSearchParams_toString
                      (Courses.searchParams_of page params))%string
                "GET"
                [("Content-Type", "application/json");
                 ("Authorization", ("Bearer " ++ toString token)%string)]
                NoBody])%list.
Proof.
  intros Hr Hmiss. unfold Courses.getCourses.
  signed_in Hr env st. cbv beta zeta. rewrite Htok, Ht. cbn [negb].
  unfold Courses.getCoursesCached.
  rewrite calls_use_cache by exact Hmiss.
  rewrite calls_bind by auto with quiet.
  rewrite calls_try_catch.
  - change (fetch_calls (snd (bind ask ?k env st)))
      with (fetch_calls (snd (k env env st))).
    cbv beta. rewrite calls_fetch by auto with quiet. reflexivity.
  - intros e. apply quiet_bind; [auto with quiet | intros _].
    apply quiet_bind; auto with quiet.
Qed.

(** C8. With a token, [updateCourse] calls [fetch] once, with method
    POST, on [{base}/courses/{id}], the body being the form data with
    the field [_method = PATCH] appended; [updateGroup] calls [fetch]
    once, with method PATCH, on [{base}/groups/{id}], the body being the
    JSON of the group data. *)
Theorem update_transport_shape (env : Env) (st : State) (token : value)
  (id : string) :
  resolve env = Some token ->
  (forall formData,
      exists req,
        fetch_calls (snd (Courses.updateCourse id formData env st))
        = (fetch_calls st ++ [req])%list
        /\ method req = "POST"
        /\ url req = API_BASE env ++ "/courses/" ++ id
        /\ body req = Multipart (formData ++ [("_method", Text "PATCH")])%list)
  /\ (forall groupData,
         exists req,
           fetch_calls (snd (Groups.updateGroup id groupData env st))
           = (fetch_calls st ++ [req])%list
           /\ method req = "PATCH"
           /\ url req = API_BASE env ++ "/groups/" ++ id
           /\ body req = JSON_stringify groupData).
Proof.
  intros Hr. split.
  - intros formData. eexists. split.
    + apply (updateCourse_request env st token id formData Hr).
    + repeat split.
  - intros groupData. eexists. split.
    + apply (updateGroup_request env st token id groupData Hr).
    + repeat split.
Qed.

Lemma update_transport_shape_witness :
  exists req,
    fetch_calls
      (snd (Courses.updateCourse "3" [("title", Text "Rocq")]
              (Sample.signed_in 10 Sample.offline) Sample.empty))
    = ([] ++ [req])%list
    /\ method req = "POST"
    /\ url req = "http://127.0.0.1:8000/api/v1/courses/3"
    /\ body req = Multipart [("title", Text "Rocq"); ("_method", Text "PATCH")].
Proof.
  exact (proj1 (update_transport_shape (Sample.signed_in 10 Sample.offline)
                  Sample.empty (VStr "tok") "3" eq_refl)
           [("title", Text "Rocq")]).
Defined.

(* ================================================================== *)
(** ** The catch block of updateGroup *)
(* ================================================================== *)

(** C9. Whatever error is thrown inside the [try] block of
    [updateGroup], the operation returns the result object with
    [success: false], the fixed message "An unexpected error occurred."
    and code 500: nothing of the error reaches the result. *)
Theorem updateGroup_swallows_error (id : string) (groupData : value)
  (env : Env) (st st' : State) (e : thrown) :
  Groups.updateGroup_try id groupData env st = (Throw e, st') ->
  Groups.updateGroup id groupData env st =
    (Return (VObj [("success", VBool false);
                   ("message", VStr "An unexpected error occurred.");
                   ("code", VNum 500)]),
     st').
Proof.
  intros Htry. unfold Groups.updateGroup, try_catch. now rewrite Htry.
Qed.

Lemma updateGroup_never_throws (id : string) (groupData : value)
  (env : Env) (st : State) :
  exists result st', Groups.updateGroup id groupData env st = (Return result, st').
Proof.
  unfold Groups.updateGroup, try_catch.
  destruct (Groups.updateGroup_try id groupData env st) as [[v | e] st'];
    eexists; eexists; reflexivity.
Qed.

Lemma updateGroup_swallows_error_witness :
  Groups.updateGroup_try "3" (VObj [("group_name", VStr "A")])
    (Sample.signed_in 10 Sample.offline) Sample.empty
  = (Throw (ErrorObj "fetch failed"),
     mkState
       [mkRequest "http://127.0.0.1:8000/api/v1/groups/3" "PATCH"
                  [("Content-Type", "application/json");
                   ("Authorization", "Bearer tok")]
                  (JSON_stringify (VObj [("group_name", VStr "A")]))]
       [] [] [])
  /\ fst (Groups.updateGroup "3" (VObj [("group_name", VStr "A")])
            (Sample.signed_in 10 Sample.offline) Sample.empty)
     = Return (VObj [("success", VBool false);
                     ("message", VStr "An unexpected error occurred.");
                     ("code", VNum 500)]).
Proof.
  split; [reflexivity |].
  rewrite (updateGroup_swallows_error "3" (VObj [("group_name", VStr "A")])
             (Sample.signed_in 10 Sample.offline) Sample.empty _ _ eq_refl).
  reflexivity.
Defined.

(* ================================================================== *)
(** ** Further properties: the callbacks *)
(* ================================================================== *)

Lemma get_set (o : obj) (k k' : string) (v : value) :
  get (set o k v) k' = if (k =? k')%string then v else get o k'.
Proof.
  destruct (String.eqb_spec k k') as [<- | Hne].
  - apply get_set_same.
  - now apply get_set_other.
Qed.

(** Case analysis on every comparison of keys in the goal. *)
Ltac key_cases :=
  repeat match goal with
         | |- context [String.eqb ?a ?b] =>
             destruct (String.eqb_spec a b); subst; try congruence
         end;
  try reflexivity.

Lemma jwt_without_user parse now token :
  jwt parse now token None =
    if expired parse now token then set token "accessToken" VNull else token.
Proof. reflexivity. Qed.

Lemma date_lt_later (d : time_value) (now now' : Z) :
  now <= now' -> date_lt d (Some now) = true -> date_lt d (Some now') = true.
Proof.
  destruct d as [t |]; simpl; [| discriminate].
  intros Hle Hlt. apply Z.ltb_lt in Hlt. apply Z.ltb_lt. lia.
Qed.

Lemma expired_later parse (now now' : Z) (token : obj) :
  now <= now' ->
  expired parse now token = true -> expired parse now' token = true.
Proof.
  unfold expired. intros Hle H.
  apply andb_true_iff in H as [H1 H2]. rewrite H1. simpl.
  now apply (date_lt_later _ now).
Qed.

Lemma jwt_accessToken parse (now : Z) (token : obj) :
  get (jwt parse now token None) "accessToken" =
    if expired parse now token then VNull else get token "accessToken".
Proof.
  rewrite jwt_without_user.
  destruct (expired parse now token); [apply get_set_same | reflexivity].
Qed.

Lemma jwt_sign_in_expiresAt parse (now : Z) (token user : obj) :
  get (jwt parse now token (Some user)) "expiresAt" = get user "expiresAt".
Proof.
  unfold jwt. rewrite get_set_same. fold (expired parse now user).
  destruct (expired parse now user).
  - rewrite get_set_other by discriminate. apply get_set_same.
  - apply get_set_same.
Qed.

Lemma jwt_sign_in_accessToken parse (now : Z) (token user : obj) :
  get (jwt parse now token (Some user)) "accessToken" =
    if expired parse now user then VNull else get user "accessToken".
Proof.
  unfold jwt. rewrite get_set_same. fold (expired parse now user).
  destruct (expired parse now user).
  - apply get_set_same.
  - rewrite get_set_other by discriminate. apply get_set_same.
Qed.

(** X1. On a session access (no [user]), the jwt callback changes
    nothing of the token but [accessToken], and it changes that one
    only to [null], exactly when the expiry lies before [now]. *)
Theorem jwt_touches_only_accessToken parse (now : Z) (token : obj) (k : string) :
  get (jwt parse now token None) k =
    if (k =? "accessToken")%string && expired parse now token
    then VNull
    else get token k.
Proof.
  rewrite jwt_without_user.
  destruct (expired parse now token).
  - rewrite get_set. rewrite String.eqb_sym.
    now destruct (k =? "accessToken")%string.
  - now rewrite andb_false_r.
Qed.

(** X2. Expiry is final. A token whose access token the jwt callback
    nulls at one instant has it nulled at every later instant; and the
    token the callback returned, handed back to it at any instant at all,
    still has no access token. *)
Theorem expiry_is_final parse (now now' : Z) (token : obj) :
  get (jwt parse now token None) "accessToken" = VNull ->
  (now <= now' -> get (jwt parse now' token None) "accessToken" = VNull)
  /\ get (jwt parse now' (jwt parse now token None) None) "accessToken" = VNull.
Proof.
  intros Hnull. split.
  - intros Hle. rewrite jwt_accessToken in *.
    destruct (expired parse now token) eqn:He.
    + now rewrite (expired_later parse now now' token Hle He).
    + now destruct (expired parse now' token).
  - rewrite jwt_accessToken.
    now destruct (expired parse now' (jwt parse now token None)).
Qed.

Lemma expiry_is_final_witness :
  get (jwt (fun _ => None) 5000 (Sample.token (VNum 1000)) None) "accessToken"
    = VNull
  /\ get (jwt (fun _ => None) 0
            (jwt (fun _ => None) 1001 (Sample.token (VNum 1000)) None) None)
         "accessToken" = VNull.
Proof.
  split.
  - apply (proj1 (expiry_is_final (fun _ => None) 1001 5000
                    (Sample.token (VNum 1000)) eq_refl)).
    lia.
  - apply (proj2 (expiry_is_final (fun _ => None) 1001 0
                    (Sample.token (VNum 1000)) eq_refl)).
Defined.

(** X3. At sign-in the jwt callback overwrites the seven fields of the
    token with those of the user, whatever the token held: the access
    token of the session is the user's, or [null] when the user's own
    expiry already lies before [now]; every other field of the token is
    kept. *)
Theorem jwt_sign_in parse (now : Z) (token user : obj) (k : string) :
  get (jwt parse now token (Some user)) k =
    if (k =? "accessToken")%string
    then (if expired parse now user then VNull else get user "accessToken")
    else if existsb (String.eqb k)
              ["id"; "name"; "email"; "roles"; "permissions"; "expiresAt"]
    then get user k
    else get token k.
Proof.
  unfold jwt.
  rewrite get_set_same. fold (expired parse now user).
  destruct (expired parse now user);
    rewrite !get_set; cbn [existsb]; key_cases.
Qed.

Lemma session_callback_get (session token : obj) (k : string) :
  get (session_callback session token) k =
    if (k =? "expiresAt")%string then get token "expiresAt"
    else if (k =? "accessToken")%string then get token "accessToken"
    else if (k =? "user")%string
    then match get session "user" with
         | VObj user =>
             VObj (set (set (set (set (set user "id" (get token "id"))
                                      "name" (get token "name"))
                                 "email" (get token "email"))
                            "roles" (get token "roles"))
                       "permissions" (get token "permissions"))
         | v => v
         end
    else get session k.
Proof.
  unfold session_callback.
  destruct (get session "user") eqn:Hu; rewrite !get_set; key_cases;
    now rewrite Hu.
Qed.

(** X4. The session shows of the token its [id], [name], [email],
    [roles], [permissions], [accessToken] and [expiresAt], and nothing
    else: two tokens that agree on these seven fields give the same
    session. *)
Theorem session_shows_seven_fields (session token token' : obj) :
  (forall k,
      In k ["id"; "name"; "email"; "roles"; "permissions";
            "accessToken"; "expiresAt"] ->
      get token k = get token' k) ->
  session_callback session token = session_callback session token'.
Proof.
  intros H. unfold session_callback.
  rewrite (H "id"), (H "name"), (H "email"), (H "roles"), (H "permissions"),
    (H "accessToken"), (H "expiresAt") by (simpl; tauto).
  reflexivity.
Qed.

Lemma session_shows_seven_fields_witness :
  session_callback Sample.session
    (Sample.token (VNum 1000) ++ [("refreshToken", VStr "secret")])%list
  = session_callback Sample.session (Sample.token (VNum 1000)).
Proof.
  apply session_shows_seven_fields.
  intros k Hk. simpl in Hk.
  repeat (destruct Hk as [<- | Hk]; [reflexivity |]). contradiction.
Defined.

(** X5. The session callback writes [user], [accessToken] and
    [expiresAt] only: every other field of the session is kept, and a
    session without a user object gets none. *)
Theorem session_callback_keeps_rest (session token : obj) (k : string) :
  (k =? "expiresAt")%string || (k =? "accessToken")%string
    || ((k =? "user")%string
        && match get session "user" with VObj _ => true | _ => false end)
  = false ->
  get (session_callback session token) k = get session k.
Proof.
  intros H. rewrite session_callback_get.
  destruct (k =? "expiresAt")%string; [discriminate |].
  destruct (k =? "accessToken")%string; [discriminate |].
  destruct (String.eqb_spec k "user") as [Hk | Hk]; [| reflexivity].
  rewrite Hk. simpl in H. now destruct (get session "user").
Qed.

Lemma session_callback_keeps_rest_witness :
  get (session_callback Sample.session (Sample.token (VNum 1000))) "expires"
  = VStr "2030-01-01T00:00:00.000Z"
  /\ get (session_callback [("expires", VStr "never")] (Sample.token (VNum 1000)))
         "user" = VUndefined.
Proof.
  split.
  - apply (session_callback_keeps_rest Sample.session (Sample.token (VNum 1000))
             "expires" eq_refl).
  - apply (session_callback_keeps_rest [("expires", VStr "never")]
             (Sample.token (VNum 1000)) "user" eq_refl).
Defined.

(* ================================================================== *)
(** ** Further properties: signing in *)
(* ================================================================== *)

(** X6. Without an email or without a password, [authorize] answers
    [null] on the spot: [loginUser] is not called, whatever it is. *)
Theorem authorize_requires_credentials (loginUser : value -> M value)
  (credentials : value) (env : Env) (st : State) :
  truthy (optional_get credentials "email") = false
  \/ truthy (optional_get credentials "password") = false ->
  authorize loginUser credentials env st = (Return VNull, st).
Proof.
  intros H. unfold authorize.
  destruct H as [H | H]; rewrite H; [| rewrite orb_true_r]; reflexivity.
Qed.

Lemma authorize_requires_credentials_witness :
  authorize (fun _ => throw (ErrorObj "never called"))
    (VObj [("email", VStr "admin@example.com"); ("password", VStr "")])
    (Sample.signed_out Sample.offline) Sample.empty
  = (Return VNull, Sample.empty).
Proof.
  apply authorize_requires_credentials. right. reflexivity.
Defined.

(** What [authorize] returns when it returns a user. *)
Lemma authorize_user (loginUser : value -> M value) (credentials : value)
  (env : Env) (st st' : State) (user : obj) :
  authorize loginUser credentials env st = (Return (VObj user), st') ->
  exists (data profile : obj) (id : string),
    loginUser (VObj [("email", optional_get credentials "email");
                     ("password", optional_get credentials "password")])
      env st = (Return (VObj data), st')
    /\ truthy (optional_get credentials "email") = true
    /\ truthy (optional_get credentials "password") = true
    /\ truthy (get data "access_token") = true
    /\ get data "user" = VObj profile
    /\ call_toString (get profile "id") = Return (VStr id)
    /\ user = [("id", VStr id);
               ("name", get profile "name");
               ("email", get profile "email");
               ("roles", get data "roles");
               ("permissions", array_or_empty (get data "permissions"));
               ("accessToken", get data "access_token");
               ("expiresAt", get data "expires_at")].
Proof.
  unfold authorize. intros H.
  destruct (truthy (optional_get credentials "email")); [| discriminate].
  destruct (truthy (optional_get credentials "password")); [| discriminate].
  cbn [negb orb] in H. unfold bind in H.
  destruct (loginUser _ env st) as [[data | e] st1]; [| discriminate].
  destruct data as [| | | | | | data]; try discriminate.
  cbn [optional_get] in H.
  destruct (truthy (get data "user")) eqn:Huser; [| discriminate].
  destruct (truthy (get data "access_token")) eqn:Htoken; [| discriminate].
  cbn [negb orb prop lift] in H.
  destruct (get data "user") as [| | b | n | s | items | profile] eqn:Hprofile;
    try discriminate.
  cbn [prop] in H.
  destruct (call_toString (get profile "id")) as [id | e] eqn:Hid;
    [| discriminate].
  unfold ret in H. injection H as Hu Hst. subst st1 user.
  assert (exists s, id = VStr s) as [s ->]
    by (destruct (get profile "id"); simpl in Hid; try discriminate;
        injection Hid as <-; eauto).
  exists data, profile, s. repeat split; assumption.
Qed.

(** X7. A user [authorize] returns always carries a truthy access
    token (the one [loginUser] gave), an array of permissions and an
    [id] that is a string: nobody is signed in without a token. *)
Theorem authorize_user_has_token (loginUser : value -> M value)
  (credentials : value) (env : Env) (st st' : State) (user : obj) :
  authorize loginUser credentials env st = (Return (VObj user), st') ->
  truthy (get user "accessToken") = true
  /\ (exists items, get user "permissions" = VArr items)
  /\ (exists s, get user "id" = VStr s).
Proof.
  intros H.
  destruct (authorize_user _ _ _ _ _ _ H)
    as (data & profile & id & _ & _ & _ & Htoken & _ & _ & ->).
  cbn [get String.eqb Ascii.eqb Bool.eqb]. repeat split.
  - exact Htoken.
  - unfold array_or_empty. destruct (get data "permissions"); eauto.
  - eauto.
Qed.

Lemma authorize_user_has_token_witness :
  truthy (get Login.user "accessToken") = true
  /\ (exists items, get Login.user "permissions" = VArr items)
  /\ (exists s, get Login.user "id" = VStr s).
Proof.
  apply (authorize_user_has_token Login.loginUser Login.credentials
           (Sample.signed_out Sample.offline) Sample.empty Sample.empty
           Login.user eq_refl).
Defined.

Lemma expired_ext parse (now : Z) (token token' : obj) :
  get token "expiresAt" = get token' "expiresAt" ->
  expired parse now token = expired parse now token'.
Proof. unfold expired. now intros ->. Qed.

(** X8. Signing in, then coming back. Let [authorize] return a user,
    let the jwt callback build the cookie from it at time [signed], and
    let the session be read at a later time [now] at which the expiry
    of the user does not lie in the past: the resolver yields the access
    token that [loginUser] gave, whatever the previous token held. *)
Theorem sign_in_then_resolve (loginUser : value -> M value)
  (credentials : value) (env0 : Env) (st st' : State) (user previous : obj)
  (env : Env) (signed : Z) :
  authorize loginUser credentials env0 st = (Return (VObj user), st') ->
  cookie env = Some (jwt (Date_parse env) signed previous (Some user)) ->
  signed <= clock env ->
  expired (Date_parse env) (clock env) user = false ->
  resolve env = Some (get user "accessToken").
Proof.
  intros Hauth Hcookie Hle Hfresh.
  destruct (authorize_user _ _ _ _ _ _ Hauth)
    as (data & profile & id & _ & _ & _ & Htoken & _ & _ & Huser).
  assert (Htruthy : truthy (get user "accessToken") = true)
    by (subst user; exact Htoken).
  assert (Hsigned : expired (Date_parse env) signed user = false).
  { destruct (expired (Date_parse env) signed user) eqn:He; [| reflexivity].
    now rewrite (expired_later _ signed (clock env) user Hle He) in Hfresh. }
  rewrite (resolve_cookie env _ Hcookie). cbv zeta.
  rewrite jwt_accessToken.
  rewrite (expired_ext _ _ _ user) by apply jwt_sign_in_expiresAt.
  rewrite Hfresh, jwt_sign_in_accessToken.
  now rewrite Hsigned, Htruthy.
Qed.

Lemma sign_in_then_resolve_witness :
  resolve (Login.later 10 1000) = Some (VStr "tok").
Proof.
  apply (sign_in_then_resolve Login.loginUser Login.credentials
           (Sample.signed_out Sample.offline) Sample.empty Sample.empty
           Login.user [] (Login.later 10 1000) 10 eq_refl eq_refl).
  - simpl. lia.
  - reflexivity.
Defined.

(* ================================================================== *)
(** ** Further properties: an expired token is never sent *)
(* ================================================================== *)

Lemma run_without_token (op : operation) (env : Env) (st : State) :
  resolve env = None ->
  fetch_calls (snd (run op env st)) = fetch_calls st
  /\ cache (snd (run op env st)) = cache st
  /\ updated_tags (snd (run op env st)) = updated_tags st.
Proof.
  intros Hr. destruct op; simpl run.
  - now rewrite getGroups_without_token.
  - now rewrite getGroupById_without_token.
  - now rewrite addGroup_without_token.
  - now rewrite updateGroup_without_token.
  - now rewrite deleteGroup_without_token.
  - now rewrite getCourses_without_token.
  - now rewrite getCourseById_without_token.
  - now rewrite createCourse_without_token.
  - now rewrite updateCourse_without_token.
  - now rewrite DeleteCourse_without_token.
Qed.

(** X9. A token past its expiry is never forwarded: when the expiry
    of the session cookie lies before the clock, no operation calls
    [fetch], none touches the cache and none updates a tag. *)
Theorem expired_token_never_sent (op : operation) (env : Env) (st : State)
  (token : obj) :
  cookie env = Some token ->
  expired (Date_parse env) (clock env) token = true ->
  fetch_calls (snd (run op env st)) = fetch_calls st
  /\ cache (snd (run op env st)) = cache st
  /\ updated_tags (snd (run op env st)) = updated_tags st.
Proof.
  intros Hcookie Hexpired. apply run_without_token.
  rewrite (resolve_cookie env token Hcookie). cbv zeta.
  rewrite jwt_accessToken. now rewrite Hexpired.
Qed.

Lemma expired_token_never_sent_witness :
  fetch_calls
    (snd (run (CoursesCreate [("title", Text "Rocq")])
              (Sample.signed_in 1001 Sample.offline) Sample.cached_page)) = []
  /\ cache
       (snd (run (CoursesCreate [("title", Text "Rocq")])
                 (Sample.signed_in 1001 Sample.offline) Sample.cached_page))
     = cache Sample.cached_page
  /\ updated_tags
       (snd (run (CoursesCreate [("title", Text "Rocq")])
                 (Sample.signed_in 1001 Sample.offline) Sample.cached_page)) = [].
Proof.
  apply (expired_token_never_sent (CoursesCreate [("title", Text "Rocq")])
           (Sample.signed_in 1001 Sample.offline) Sample.cached_page
           (Sample.token (VNum 1000)) eq_refl eq_refl).
Defined.

(* ================================================================== *)
(** ** Further properties: the requests *)
(* ================================================================== *)

#[local] Hint Extern 3 (quiet (match ?e with ErrorObj _ => _ | Rejection _ => _ end)) =>
  destruct e : quiet.
#[local] Hint Extern 3 (quiet (match ?p with Fulfilled _ => _ | Rejected _ => _ end)) =>
  destruct p : quiet.
#[local] Hint Extern 1 (quiet (let _ := _ in _)) => cbv zeta : quiet.

(** Runs an operation to its call of [fetch] and counts the calls. *)
Ltac past_token Hr env st :=
  match goal with
  | |- context [bind getServerSession ?k env st] =>
      let session := fresh "session" in
      let Hrun := fresh "Hrun" in
      let Hsame := fresh "Hsame" in
      let Htruthy := fresh "Htruthy" in
      destruct (bind_getServerSession k env st _ Hr)
        as (session & Hrun & Hsame & Htruthy);
      rewrite Hrun; cbv beta zeta; rewrite Hsame, Htruthy; cbn [negb]
  end.

Ltac one_request Hr env st :=
  repeat first [ rewrite calls_bind by auto 8 with quiet
               | rewrite calls_try_catch by auto 8 with quiet ];
  past_token Hr env st;
  change (fetch_calls (snd (bind ask ?k env st)))
    with (fetch_calls (snd (k env env st)));
  cbv beta; rewrite calls_fetch by auto 10 with quiet; reflexivity.

Lemma calls_use_cache_hit (fn : string) (args : list value) (tag : string)
  (body : M value) env st :
  cache_lookup fn args (cache st) <> None ->
  use_cache fn args tag body env st =
    (match cache_lookup fn args (cache st) with
     | Some v => Return v
     | None => Throw (ErrorObj "")
     end, st).
Proof.
  intros Hhit. unfold use_cache.
  now destruct (cache_lookup fn args (cache st)).
Qed.

Lemma run_request (op : operation) (env : Env) (st : State) (token : value) :
  resolve env = Some token ->
  uncached op token st ->
  fetch_calls (snd (run op env st))
  = (fetch_calls st ++ [request_of env token op])%list.
Proof.
  intros Hr Hmiss. destruct op; simpl run.
  - unfold Groups.getGroups.
    rewrite calls_try_catch by auto with quiet.
    past_token Hr env st.
    unfold Groups.getGroupsCached.
    rewrite calls_use_cache by exact Hmiss.
    rewrite calls_try_catch by auto with quiet.
    change (fetch_calls (snd (bind ask ?k env st)))
      with (fetch_calls (snd (k env env st))).
    cbv beta. rewrite calls_fetch by auto with quiet. reflexivity.
  - unfold Groups.getGroupById. one_request Hr env st.
  - unfold Groups.addGroup. one_request Hr env st.
  - apply (updateGroup_request env st token id groupData Hr).
  - unfold Groups.deleteGroup. one_request Hr env st.
  - unfold Courses.getCourses.
    past_token Hr env st.
    unfold Courses.getCoursesCached.
    rewrite calls_use_cache by exact Hmiss.
    rewrite calls_bind by auto with quiet.
    rewrite calls_try_catch by auto 8 with quiet.
    change (fetch_calls (snd (bind ask ?k env st)))
      with (fetch_calls (snd (k env env st))).
    cbv beta. rewrite calls_fetch by auto with quiet. reflexivity.
  - unfold Courses.getCourseById.
    past_token Hr env st.
    change (fetch_calls (snd (bind ask ?k env st)))
      with (fetch_calls (snd (k env env st))).
    cbv beta. rewrite calls_fetch by auto 10 with quiet. reflexivity.
  - unfold Courses.createCourse. one_request Hr env st.
  - apply (updateCourse_request env st token id formData Hr).
  - unfold Courses.DeleteCourse.
    past_token Hr env st.
    change (fetch_calls (snd (bind ask ?k env st)))
      with (fetch_calls (snd (k env env st))).
    cbv beta. rewrite calls_fetch by auto 10 with quiet. reflexivity.
Qed.

(** A listing found in the cache is answered from it, and nothing
    else happens. *)
Lemma run_cached (op : operation) (env : Env) (st : State) (token : value) :
  resolve env = Some token ->
  ~ uncached op token st ->
  exists v, run op env st = (Return v, st).
Proof.
  intros Hr Hhit.
  destruct (getServerSession_present env st token Hr) as (s & Hs & Htok & Ht).
  destruct op; simpl in Hhit; try tauto; simpl run.
  - unfold Groups.getGroups, try_catch, bind. rewrite Hs. cbv beta zeta.
    rewrite Htok, Ht. cbn [negb]. unfold Groups.getGroupsCached.
    rewrite calls_use_cache_hit by exact Hhit.
    destruct (cache_lookup _ _ (cache st)); [eauto | contradiction].
  - unfold Courses.getCourses, bind. rewrite Hs. cbv beta zeta.
    rewrite Htok, Ht. cbn [negb]. unfold Courses.getCoursesCached.
    rewrite calls_use_cache_hit by exact Hhit.
    destruct (cache_lookup _ _ (cache st)); [eauto | contradiction].
Qed.

Lemma uncached_dec (op : operation) (token : value) (st : State) :
  uncached op token st \/ ~ uncached op token st.
Proof.
  destruct op; simpl; try (left; exact I);
    destruct (cache_lookup _ _ (cache st)); (now left) || (right; discriminate).
Qed.

(** X10. With a token, an operation calls [fetch] at most once, and a
    call it makes carries [Authorization: Bearer] with the token the
    resolver gave. *)
Theorem requests_carry_bearer (op : operation) (env : Env) (st : State)
  (token : value) :
  resolve env = Some token ->
  exists calls,
    fetch_calls (snd (run op env st)) = (fetch_calls st ++ calls)%list
    /\ (length calls <= 1)%nat
    /\ Forall (authorized token) calls.
Proof.
  intros Hr. destruct (uncached_dec op token st) as [Hmiss | Hhit].
  - exists [request_of env token op]. split; [now apply run_request |].
    split; [simpl; lia |].
    constructor; [| constructor].
    unfold authorized. destruct op; simpl; tauto.
  - destruct (run_cached op env st token Hr Hhit) as [v Hv].
    exists []. rewrite Hv. simpl. rewrite app_nil_r.
    repeat split; [lia | constructor].
Qed.

Lemma requests_carry_bearer_witness :
  exists calls,
    fetch_calls (snd (run (GroupsDelete 7)
                          (Sample.signed_in 10 Sample.offline) Sample.empty))
    = ([] ++ calls)%list
    /\ (length calls <= 1)%nat
    /\ Forall (authorized (VStr "tok")) calls.
Proof.
  exact (requests_carry_bearer (GroupsDelete 7)
           (Sample.signed_in 10 Sample.offline) Sample.empty (VStr "tok")
           eq_refl).
Defined.

(** X11. The REST interface. With a token, an operation that is not
    answered from the cache calls [fetch] exactly once, whatever the
    transport then does: GET on [{base}/{resource}?{query}] for a
    listing, GET on [{base}/{resource}/{id}] for a record, POST on
    [{base}/{resource}] for a creation, DELETE on
    [{base}/{resource}/{id}] for a deletion, PATCH (groups) or POST
    (courses) on [{base}/{resource}/{id}] for an update. *)
Theorem one_request_per_operation (op : operation) (env : Env) (st : State)
  (token : value) :
  resolve env = Some token ->
  uncached op token st ->
  exists req,
    fetch_calls (snd (run op env st)) = (fetch_calls st ++ [req])%list
    /\ (method req, url req) = request_line env op.
Proof.
  intros Hr Hmiss. exists (request_of env token op).
  split; [now apply run_request |].
  unfold request_of. simpl. now destruct (request_line env op).
Qed.

Lemma one_request_per_operation_witness :
  exists req,
    fetch_calls (snd (run (CoursesDelete 7)
                          (Sample.signed_in 10 Sample.offline) Sample.empty))
    = ([] ++ [req])%list
    /\ (method req, url req)
       = ("DELETE", "http://127.0.0.1:8000/api/v1/courses/7").
Proof.
  exact (one_request_per_operation (CoursesDelete 7)
           (Sample.signed_in 10 Sample.offline) Sample.empty (VStr "tok")
           eq_refl I).
Defined.

(* ================================================================== *)
(** ** Further properties: the answers *)
(* ================================================================== *)

(** Runs an operation on the answer [res] of the server. *)
Ltac on_answer Hr Hanswers env st :=
  with_token Hr env st; rewrite ?Hanswers; unfold json.

Section Success.

Variables (env : Env) (st : State) (token : value).
Variables (res : Response) (data : value).
Hypothesis Hr : resolve env = Some token.
Hypothesis Hanswers : answers env res.
Hypothesis Hok : ok res = true.
Hypothesis Hpayload : payload res = Json data.

Lemma run_success (op : operation) :
  uncached op token st ->
  fst (run op env st) = Return data.
Proof.
  intros Hmiss. destruct op; simpl run.
  - unfold Groups.getGroups. with_token Hr env st.
    unfold Groups.getGroupsCached, use_cache. cache_miss Hmiss.
    cbv beta iota delta [bind try_catch ask fetch].
    rewrite Hanswers. unfold json. now rewrite Hpayload.
  - unfold Groups.getGroupById. on_answer Hr Hanswers env st.
    now rewrite Hok, Hpayload.
  - unfold Groups.addGroup. on_answer Hr Hanswers env st.
    now rewrite Hpayload, Hok.
  - unfold Groups.updateGroup, Groups.updateGroup_try.
    on_answer Hr Hanswers env st. now rewrite Hpayload, Hok.
  - unfold Groups.deleteGroup. on_answer Hr Hanswers env st.
    now rewrite Hpayload.
  - unfold Courses.getCourses. with_token Hr env st.
    unfold Courses.getCoursesCached, use_cache. cache_miss Hmiss.
    cbv beta iota delta [bind try_catch ask fetch].
    rewrite Hanswers. unfold json. now rewrite Hok, Hpayload.
  - unfold Courses.getCourseById. on_answer Hr Hanswers env st.
    now rewrite Hok, Hpayload.
  - unfold Courses.createCourse. on_answer Hr Hanswers env st.
    now rewrite Hpayload, Hok.
  - unfold Courses.updateCourse. on_answer Hr Hanswers env st.
    now rewrite Hpayload, Hok.
  - unfold Courses.DeleteCourse. on_answer Hr Hanswers env st.
    now rewrite Hok, Hpayload.
Qed.

End Success.

(** X12. With a token, when the server answers with a success status
    and a JSON body, every operation returns that body as it is; a
    creation, an update or a deletion has then updated the tag of the
    listing of its resource, once, and a listing or the reading of a
    record has updated none. *)
Theorem success_returns_body (op : operation) (env : Env) (st : State)
  (token : value) (res : Response) (data : value) :
  resolve env = Some token ->
  answers env res ->
  ok res = true ->
  payload res = Json data ->
  uncached op token st ->
  fst (run op env st) = Return data
  /\ updated_tags (snd (run op env st))
     = (updated_tags st ++ if mutation op then [list_tag op] else [])%list.
Proof.
  intros Hr Ha Hok Hp Hmiss. split.
  - now apply (run_success env st token res data).
  - destruct op; simpl run; cbn [mutation list_tag].
    + unfold Groups.getGroups. with_token Hr env st.
      unfold Groups.getGroupsCached, use_cache. cache_miss Hmiss.
      cbv beta iota delta [bind try_catch ask fetch].
      rewrite Ha. unfold json. rewrite Hp. simpl. now rewrite app_nil_r.
    + unfold Groups.getGroupById. on_answer Hr Ha env st.
      rewrite Hok, Hp. simpl. now rewrite app_nil_r.
    + rewrite (addGroup_tags env st token res data Hr Ha Hp). now rewrite Hok.
    + rewrite (updateGroup_tags env st token res data Hr Ha Hp). now rewrite Hok.
    + apply (deleteGroup_tags env st token res data Hr Ha Hp).
    + unfold Courses.getCourses. with_token Hr env st.
      unfold Courses.getCoursesCached, use_cache. cache_miss Hmiss.
      cbv beta iota delta [bind try_catch ask fetch].
      rewrite Ha. unfold json. rewrite Hok, Hp. simpl. now rewrite app_nil_r.
    + unfold Courses.getCourseById. on_answer Hr Ha env st.
      rewrite Hok, Hp. simpl. now rewrite app_nil_r.
    + rewrite (createCourse_tags env st token res data Hr Ha Hp). now rewrite Hok.
    + rewrite (updateCourse_tags env st token res data Hr Ha Hp). now rewrite Hok.
    + rewrite (DeleteCourse_tags env st token res data Hr Ha Hp). now rewrite Hok.
Qed.

Lemma success_returns_body_witness :
  fst (run (GroupsCreate (VObj [("group_name", VStr "A")]))
           (Sample.signed_in 10
              (Sample.responds 201 "Created" (VObj [("success", VBool true)])))
           Sample.cached_page)
  = Return (VObj [("success", VBool true)])
  /\ updated_tags
       (snd (run (GroupsCreate (VObj [("group_name", VStr "A")]))
                 (Sample.signed_in 10
                    (Sample.responds 201 "Created"
                       (VObj [("success", VBool true)])))
                 Sample.cached_page))
     = ["groups-list"].
Proof.
  exact (success_returns_body (GroupsCreate (VObj [("group_name", VStr "A")]))
           (Sample.signed_in 10
              (Sample.responds 201 "Created" (VObj [("success", VBool true)])))
           Sample.cached_page (VStr "tok")
           (mkResponse 201 "Created" (Json (VObj [("success", VBool true)])))
           (VObj [("success", VBool true)])
           eq_refl (fun _ => eq_refl) eq_refl eq_refl I).
Defined.

(** X13. Reading one record. When the server answers with a status
    outside 200-299, [getGroupById] and [getCourseById] throw an [Error]
    whose message ends with the status text; the body is not read, so
    this holds whatever the body is, JSON or not. *)
Theorem get_by_id_fails_on_status (env : Env) (st : State) (token : value)
  (res : Response) (id : string) :
  resolve env = Some token ->
  answers env res ->
  ok res = false ->
  fst (Groups.getGroupById id env st)
  = Throw (ErrorObj ("Failed to fetch group: " ++ statusText res))
  /\ fst (Courses.getCourseById id env st)
     = Throw (ErrorObj ("Failed to fetch course: " ++ statusText res)).
Proof.
  intros Hr Ha Hok. split.
  - unfold Groups.getGroupById. on_answer Hr Ha env st. now rewrite Hok.
  - unfold Courses.getCourseById. on_answer Hr Ha env st. now rewrite Hok.
Qed.

Lemma get_by_id_fails_on_status_witness :
  fst (Groups.getGroupById "9"
         (Sample.signed_in 10 (Sample.responds 404 "Not Found" Sample.not_found))
         Sample.empty)
  = Throw (ErrorObj "Failed to fetch group: Not Found")
  /\ fst (Courses.getCourseById "9"
            (Sample.signed_in 10 (Sample.responds 404 "Not Found" Sample.not_found))
            Sample.empty)
     = Throw (ErrorObj "Failed to fetch course: Not Found").
Proof.
  exact (get_by_id_fails_on_status
           (Sample.signed_in 10 (Sample.responds 404 "Not Found" Sample.not_found))
           Sample.empty (VStr "tok")
           (mkResponse 404 "Not Found" (Json Sample.not_found)) "9"
           eq_refl (fun _ => eq_refl) eq_refl).
Defined.

(** X14. A creation or an update of a course that the server refuses
    otherwise than with 422 and field errors throws an [Error]: its
    message is the [message] of the body when there is one, and
    otherwise "Failed to create course. Status: " (or "update") followed
    by the status. The tag of the listing is not updated. *)
Theorem course_mutation_refused (env : Env) (st : State) (token : value)
  (res : Response) (data : obj) (id : string) (formData : FormData) :
  resolve env = Some token ->
  answers env res ->
  ok res = false ->
  payload res = Json (VObj data) ->
  status res <> 422 \/ truthy (get data "errors") = false ->
  (fst (Courses.createCourse formData env st)
   = Throw (ErrorObj
              (if truthy (get data "message")
               then toString (get data "message")
               else "Failed to create course. Status: "
                    ++ number_toString (status res)))
   /\ updated_tags (snd (Courses.createCourse formData env st))
      = updated_tags st)
  /\ (fst (Courses.updateCourse id formData env st)
      = Throw (ErrorObj
                 (if truthy (get data "message")
                  then toString (get data "message")
                  else "Failed to update course. Status: "
                       ++ number_toString (status res)))
      /\ updated_tags (snd (Courses.updateCourse id formData env st))
         = updated_tags st).
Proof.
  intros Hr Ha Hok Hp Hrefused.
  assert (Herr : forall fallback,
             new_Error (js_or (get data "message") (VStr fallback))
             = ErrorObj (if truthy (get data "message")
                         then toString (get data "message") else fallback)).
  { intros fallback. unfold js_or.
    destruct (get data "message") as [| | [|] | n | s | items | o];
      try reflexivity.
    - simpl. now destruct (n =? 0).
    - simpl. now destruct (s =? "")%string. }
  assert (Hguard : (if status res =? 422 then truthy (get data "errors") else false)
                   = false).
  { destruct Hrefused as [Hs | He].
    - now destruct (Z.eqb_spec (status res) 422).
    - rewrite He. now destruct (status res =? 422). }
  repeat split.
  - unfold Courses.createCourse. on_answer Hr Ha env st.
    rewrite Hp. simpl. rewrite Hok. simpl.
    destruct (status res =? 422); simpl; rewrite ?Hguard; simpl;
      rewrite Herr; reflexivity.
  - rewrite (createCourse_tags env st token res (VObj data) Hr Ha Hp).
    now rewrite Hok, app_nil_r.
  - unfold Courses.updateCourse. on_answer Hr Ha env st.
    rewrite Hp. simpl. rewrite Hok. simpl.
    destruct (status res =? 422); simpl; rewrite ?Hguard; simpl;
      rewrite Herr; reflexivity.
  - rewrite (updateCourse_tags env st token res (VObj data) Hr Ha Hp).
    now rewrite Hok, app_nil_r.
Qed.

Lemma course_mutation_refused_witness :
  fst (Courses.createCourse []
         (Sample.signed_in 10
            (Sample.responds 500 "Internal Server Error" (VObj [])))
         Sample.empty)
  = Throw (ErrorObj "Failed to create course. Status: 500").
Proof.
  apply (course_mutation_refused
           (Sample.signed_in 10
              (Sample.responds 500 "Internal Server Error" (VObj [])))
           Sample.empty (VStr "tok")
           (mkResponse 500 "Internal Server Error" (Json (VObj []))) [] "3" []
           eq_refl (fun _ => eq_refl) eq_refl eq_refl).
  left. discriminate.
Defined.



(** X16. A deletion answered with a success status and no JSON body
    (204 No Content, say) is reported as a failure by both services:
    each throws the error of the JSON parser. [deleteGroup] has then
    left the cache and the tag alone, so the listing of groups stays
    cached; [DeleteCourse] has already updated the tag of the listing
    of courses. *)
Theorem deletion_without_content (env : Env) (st : State) (token : value)
  (res : Response) (syntax_error : string) (id : Z) :
  resolve env = Some token ->
  answers env res ->
  ok res = true ->
  payload res = NotJson syntax_error ->
  (fst (Groups.deleteGroup id env st) = Throw (ErrorObj syntax_error)
   /\ cache (snd (Groups.deleteGroup id env st)) = cache st
   /\ updated_tags (snd (Groups.deleteGroup id env st)) = updated_tags st)
  /\ (fst (Courses.DeleteCourse id env st) = Throw (ErrorObj syntax_error)
      /\ updated_tags (snd (Courses.DeleteCourse id env st))
         = (updated_tags st ++ ["courses-list"])%list).
Proof.
  intros Hr Ha Hok Hp. split.
  - unfold Groups.deleteGroup. on_answer Hr Ha env st. now rewrite Hp.
  - unfold Courses.DeleteCourse. on_answer Hr Ha env st. now rewrite Hok, Hp.
Qed.

Lemma deletion_without_content_witness :
  fst (Groups.deleteGroup 7
         (Sample.signed_in 10
            (fun _ => Responds (mkResponse 204 "No Content"
                                  (NotJson "Unexpected end of JSON input"))))
         Sample.cached_page)
  = Throw (ErrorObj "Unexpected end of JSON input")
  /\ cache (snd (Groups.deleteGroup 7
                   (Sample.signed_in 10
                      (fun _ => Responds (mkResponse 204 "No Content"
                                            (NotJson "Unexpected end of JSON input"))))
                   Sample.cached_page))
     = cache Sample.cached_page.
Proof.
  pose proof (deletion_without_content
                (Sample.signed_in 10
                   (fun _ => Responds (mkResponse 204 "No Content"
                                         (NotJson "Unexpected end of JSON input"))))
                Sample.cached_page (VStr "tok")
                (mkResponse 204 "No Content" (NotJson "Unexpected end of JSON input"))
                "Unexpected end of JSON input" 7
                eq_refl (fun _ => eq_refl) eq_refl eq_refl) as H.
  destruct H as ((H1 & H2 & _) & _). split; assumption.
Defined.

(* ================================================================== *)
(** ** Further properties: the cache of the listings *)
(* ================================================================== *)

Lemma value_ind_nested (P : value -> Prop) :
  P VUndefined -> P VNull -> (forall b, P (VBool b)) -> (forall n, P (VNum n)) ->
  (forall s, P (VStr s)) ->
  (forall items, Forall P items -> P (VArr items)) ->
  (forall props, Forall (fun kv => P (snd kv)) props -> P (VObj props)) ->
  forall v, P v.
Proof.
  intros Hu Hn Hb Hz Hs Ha Ho.
  fix IH 1. intros [| | b | n | s | items | props].
  - exact Hu.
  - exact Hn.
  - apply Hb.
  - apply Hz.
  - apply Hs.
  - apply Ha. induction items as [| x items IHitems]; constructor.
    + apply IH.
    + exact IHitems.
  - apply Ho. induction props as [| [k x] props IHprops]; constructor.
    + apply IH.
    + exact IHprops.
Qed.

Lemma value_eqb_refl (v : value) : value_eqb v v = true.
Proof.
  induction v as [| | b | n | s | items IH | props IH] using value_ind_nested;
    simpl; try reflexivity.
  - now destruct b.
  - apply Z.eqb_refl.
  - apply String.eqb_refl.
  - induction IH as [| x items Hx _ IHitems]; [reflexivity |].
    now rewrite Hx, IHitems.
  - induction IH as [| [k x] props Hx _ IHprops]; [reflexivity |].
    simpl in Hx. now rewrite String.eqb_refl, Hx, IHprops.
Qed.

Lemma value_eqb_eq (a b : value) : value_eqb a b = true -> a = b.
Proof.
  revert b.
  induction a as [| | x | n | s | items IH | props IH] using value_ind_nested;
    intros [| | y | m | t | items' | props']; simpl; try discriminate;
    try reflexivity.
  - intros H. apply Bool.eqb_prop in H. now subst.
  - intros H. apply Z.eqb_eq in H. now subst.
  - intros H. apply String.eqb_eq in H. now subst.
  - intros H. f_equal. revert items' H.
    induction IH as [| x items Hx _ IHitems]; intros [| y items'] H;
      try discriminate; [reflexivity |].
    apply andb_true_iff in H as [H1 H2].
    f_equal; [now apply Hx | now apply IHitems].
  - intros H. f_equal. revert props' H.
    induction IH as [| [k x] props Hx _ IHprops]; intros [| [k' y] props'] H;
      try discriminate; [reflexivity |].
    apply andb_true_iff in H as [H12 H3].
    apply andb_true_iff in H12 as [H1 H2].
    apply String.eqb_eq in H1. simpl in Hx.
    f_equal; [f_equal; [exact H1 | now apply Hx] | now apply IHprops].
Qed.

Lemma args_eqb_refl (args : list value) : args_eqb args args = true.
Proof.
  induction args as [| x args IH]; simpl; [reflexivity |].
  now rewrite value_eqb_refl.
Qed.

Lemma args_eqb_eq (a b : list value) : args_eqb a b = true -> a = b.
Proof.
  revert b. induction a as [| x a IH]; intros [| y b]; simpl;
    try discriminate; [reflexivity |].
  intros H. apply andb_true_iff in H as [H1 H2].
  f_equal; [now apply value_eqb_eq | now apply IH].
Qed.

Lemma cache_lookup_sound (fn : string) (args : list value)
  (c : list cache_entry) (v : value) :
  cache_lookup fn args c = Some v ->
  exists e, In e c /\ entry_fn e = fn /\ entry_args e = args
            /\ entry_value e = v.
Proof.
  unfold cache_lookup. intros H.
  destruct (find _ c) as [e |] eqn:Hfind; [| discriminate].
  injection H as <-. apply find_some in Hfind as [Hin Hmatch].
  apply andb_true_iff in Hmatch as [Hfn Hargs].
  exists e. repeat split; auto.
  - now apply String.eqb_eq.
  - now apply args_eqb_eq.
Qed.

Lemma cache_lookup_stored (fn : string) (args : list value) (tag : string)
  (c : list cache_entry) (v : value) :
  cache_lookup fn args c = None ->
  cache_lookup fn args (c ++ [mkEntry fn args tag v]) = Some v.
Proof.
  unfold cache_lookup. intros H.
  destruct (find _ c) as [e |] eqn:Hfind; [discriminate |]. clear H.
  induction c as [| e c IH]; simpl in *.
  - now rewrite String.eqb_refl, args_eqb_refl.
  - destruct ((entry_fn e =? fn)%string && args_eqb (entry_args e) args);
      [discriminate | now apply IH].
Qed.

Lemma cache_lookup_dropped (fn : string) (args : list value) (tag : string)
  (c : list cache_entry) :
  (forall e, In e c -> entry_fn e = fn -> entry_tag e = tag) ->
  cache_lookup fn args
    (filter (fun e => negb (entry_tag e =? tag)%string) c) = None.
Proof.
  intros Htag. unfold cache_lookup.
  destruct (find _ (filter _ c)) as [e |] eqn:Hfind; [| reflexivity].
  apply find_some in Hfind as [Hin Hmatch].
  apply filter_In in Hin as [Hin Hkept].
  apply andb_true_iff in Hmatch as [Hfn _]. apply String.eqb_eq in Hfn.
  rewrite (Htag e Hin Hfn), String.eqb_refl in Hkept. discriminate.
Qed.

Lemma cache_lookup_spared (fn : string) (args : list value) (tag : string)
  (c : list cache_entry) :
  (forall e, In e c -> entry_fn e = fn -> entry_tag e <> tag) ->
  cache_lookup fn args
    (filter (fun e => negb (entry_tag e =? tag)%string) c)
  = cache_lookup fn args c.
Proof.
  intros Htag. unfold cache_lookup. f_equal.
  induction c as [| e c IH]; [reflexivity |]. simpl.
  assert (IHc : forall e, In e c -> entry_fn e = fn -> entry_tag e <> tag)
    by (intros e' He'; apply Htag; now right).
  destruct (String.eqb_spec (entry_fn e) fn) as [Hfn | Hfn]; simpl.
  - destruct (String.eqb_spec (entry_tag e) tag) as [Heq | Hne].
    + exfalso. now apply (Htag e (or_introl eq_refl) Hfn).
    + simpl. apply String.eqb_eq in Hfn. rewrite Hfn. simpl.
      destruct (args_eqb (entry_args e) args); [reflexivity | now apply IH].
  - destruct (negb (entry_tag e =? tag)%string); simpl.
    + apply String.eqb_neq in Hfn. rewrite Hfn. simpl. now apply IH.
    + now apply IH.
Qed.

Lemma uncached_cached_call (op : operation) (token : value) (st : State) :
  listing op = true ->
  (uncached op token st <->
   cache_lookup (fst (cached_call op token)) (snd (cached_call op token))
     (cache st) = None).
Proof. destruct op; simpl; try discriminate; tauto. Qed.

(** A listing that reaches the transport and returns has stored what it
    returns, and has changed nothing else but the list of calls. *)
Lemma listing_stores (op : operation) (env : Env) (st st1 : State)
  (token v : value) :
  resolve env = Some token ->
  listing op = true ->
  uncached op token st ->
  run op env st = (Return v, st1) ->
  st1 = mkState (fetch_calls st ++ [request_of env token op])%list
                (cache st ++ [mkEntry (fst (cached_call op token))
                                      (snd (cached_call op token))
                                      (list_tag op) v])%list
                (updated_tags st) (console st).
Proof.
  intros Hr Hl Hmiss. destruct op; try discriminate; simpl run.
  - unfold Groups.getGroups. with_token Hr env st.
    unfold Groups.getGroupsCached, use_cache. cache_miss Hmiss.
    cbv beta iota delta [bind try_catch ask fetch].
    destruct (transport env _) as [res | msg]; simpl.
    + unfold json. destruct (payload res); simpl; intros H;
        [now injection H as <- <- | discriminate].
    + discriminate.
  - unfold Courses.getCourses. with_token Hr env st.
    unfold Courses.getCoursesCached, use_cache. cache_miss Hmiss.
    cbv beta iota delta [bind try_catch ask fetch].
    destruct (transport env _) as [res | msg]; simpl.
    + destruct (ok res); simpl; [| discriminate].
      unfold json. destruct (payload res); simpl; intros H;
        [now injection H as <- <- | discriminate].
    + discriminate.
Qed.

(** Takes the branch of [use_cache] that answers from the store. *)
Ltac cache_hit Hhit :=
  match goal with
  | |- context [cache_lookup ?fn ?args ?c] =>
      match type of Hhit with
      | _ = Some ?v =>
          replace (cache_lookup fn args c) with (Some v)
            by (symmetry; exact Hhit)
      end
  end.

(** A listing found in the cache returns what is stored and leaves
    the state as it is. *)
Lemma listing_hit (op : operation) (env : Env) (st : State) (token v : value) :
  resolve env = Some token ->
  listing op = true ->
  cache_lookup (fst (cached_call op token)) (snd (cached_call op token))
    (cache st) = Some v ->
  run op env st = (Return v, st).
Proof.
  intros Hr Hl Hhit.
  destruct (getServerSession_present env st token Hr) as (s & Hs & Htok & Ht).
  destruct op; try discriminate; simpl in Hhit; simpl run.
  - unfold Groups.getGroups, try_catch, bind. rewrite Hs. cbv beta zeta.
    rewrite Htok, Ht. cbn [negb]. unfold Groups.getGroupsCached, use_cache.
    cbv beta zeta. now cache_hit Hhit.
  - unfold Courses.getCourses, bind. rewrite Hs. cbv beta zeta.
    rewrite Htok, Ht. cbn [negb]. unfold Courses.getCoursesCached, use_cache.
    now cache_hit Hhit.
Qed.

(** X17. A listing is fetched once. After a listing that went to the
    server and returned, the same listing (same page, same filters,
    same token) returns the same value again without calling [fetch]
    and without changing anything. *)
Theorem repeated_listing_from_cache (op : operation) (env : Env)
  (st st1 : State) (token v : value) :
  resolve env = Some token ->
  listing op = true ->
  uncached op token st ->
  run op env st = (Return v, st1) ->
  run op env st1 = (Return v, st1).
Proof.
  intros Hr Hl Hmiss Hrun.
  apply (listing_hit op env st1 token v Hr Hl).
  rewrite (listing_stores op env st st1 token v Hr Hl Hmiss Hrun).
  cbn [cache]. apply cache_lookup_stored.
  now apply (uncached_cached_call op token st Hl).
Qed.

Lemma repeated_listing_from_cache_witness :
  run (CoursesList (Some 2) (Some example_filters))
      (Sample.signed_in 10
         (Sample.responds 200 "OK" (VObj [("success", VBool true)])))
      (snd (run (CoursesList (Some 2) (Some example_filters))
                (Sample.signed_in 10
                   (Sample.responds 200 "OK" (VObj [("success", VBool true)])))
                Sample.empty))
  = (Return (VObj [("success", VBool true)]),
     snd (run (CoursesList (Some 2) (Some example_filters))
              (Sample.signed_in 10
                 (Sample.responds 200 "OK" (VObj [("success", VBool true)])))
              Sample.empty)).
Proof.
  exact (repeated_listing_from_cache
           (CoursesList (Some 2) (Some example_filters))
           (Sample.signed_in 10
              (Sample.responds 200 "OK" (VObj [("success", VBool true)])))
           Sample.empty
           (snd (run (CoursesList (Some 2) (Some example_filters))
                     (Sample.signed_in 10
                        (Sample.responds 200 "OK"
                           (VObj [("success", VBool true)])))
                     Sample.empty))
           (VStr "tok") (VObj [("success", VBool true)])
           eq_refl eq_refl eq_refl eq_refl).
Defined.

(** X18. The cache never crosses sessions. A listing answered from
    the cache is answered with a value that was stored for the same
    function and the same arguments: the same page, the same filters and
    the very token of the present session. *)
Theorem cache_answers_same_token (op : operation) (env : Env)
  (st st1 : State) (token v : value) :
  resolve env = Some token ->
  listing op = true ->
  run op env st = (Return v, st1) ->
  fetch_calls st1 = fetch_calls st ->
  exists e,
    In e (cache st)
    /\ (entry_fn e, entry_args e) = cached_call op token
    /\ entry_value e = v.
Proof.
  intros Hr Hl Hrun Hquiet.
  destruct (uncached_dec op token st) as [Hmiss | Hhit].
  - rewrite (listing_stores op env st st1 token v Hr Hl Hmiss Hrun) in Hquiet.
    cbn [fetch_calls] in Hquiet.
    apply (f_equal (@length Request)) in Hquiet.
    rewrite length_app in Hquiet. simpl in Hquiet. lia.
  - rewrite (uncached_cached_call op token st Hl) in Hhit.
    destruct (cache_lookup _ _ (cache st)) as [v' |] eqn:Hlookup;
      [| contradiction].
    rewrite (listing_hit op env st token v' Hr Hl Hlookup) in Hrun.
    injection Hrun as -> _.
    destruct (cache_lookup_sound _ _ _ _ Hlookup) as (e & Hin & Hfn & Hargs & Hv).
    exists e. repeat split; auto.
    rewrite Hfn, Hargs. now destruct (cached_call op token).
Qed.

Lemma cache_answers_same_token_witness :
  exists e,
    In e (cache Sample.cached_page)
    /\ (entry_fn e, entry_args e)
       = ("getGroupsCached", [VNum 1; VStr "tok"; VObj []])
    /\ entry_value e = VObj [("success", VBool true)].
Proof.
  exact (cache_answers_same_token (GroupsList None None)
           (Sample.signed_in 10 Sample.offline) Sample.cached_page
           Sample.cached_page (VStr "tok") (VObj [("success", VBool true)])
           eq_refl eq_refl eq_refl eq_refl).
Defined.

Lemma cache_tagged_listing (op : operation) (token : value)
  (c : list cache_entry) (e : cache_entry) :
  cache_tagged c ->
  listing op = true ->
  In e c ->
  entry_fn e = fst (cached_call op token) ->
  entry_tag e = list_tag op.
Proof.
  intros Htagged Hl Hin Hfn. destruct (Htagged e Hin) as [Hg Hc].
  destruct op; try discriminate; simpl in *; auto.
Qed.

(** A mutation that succeeds drops from the store every entry under
    the tag of its resource, and only those. *)
Lemma mutation_cache (op : operation) (env : Env) (st : State) (token : value)
  (res : Response) (data : value) :
  resolve env = Some token ->
  answers env res ->
  ok res = true ->
  payload res = Json data ->
  mutation op = true ->
  cache (snd (run op env st))
  = filter (fun e => negb (entry_tag e =? list_tag op)%string) (cache st).
Proof.
  intros Hr Ha Hok Hp Hm. destruct op; try discriminate; simpl run.
  - unfold Groups.addGroup. on_answer Hr Ha env st. now rewrite Hp, Hok.
  - unfold Groups.updateGroup, Groups.updateGroup_try.
    on_answer Hr Ha env st. now rewrite Hp, Hok.
  - unfold Groups.deleteGroup. on_answer Hr Ha env st. now rewrite Hp.
  - unfold Courses.createCourse. on_answer Hr Ha env st. now rewrite Hp, Hok.
  - unfold Courses.updateCourse. on_answer Hr Ha env st. now rewrite Hp, Hok.
  - unfold Courses.DeleteCourse. on_answer Hr Ha env st. now rewrite Hok, Hp.
Qed.

(** X19. A mutation invalidates the listings of its resource. After a
    creation, an update or a deletion that the server accepted, every
    listing of the same resource, whatever its page and its filters,
    goes to the server again: it calls [fetch]. *)
Theorem mutation_then_listing_refetches (op next : operation) (env : Env)
  (st : State) (token : value) (res : Response) (data : value) :
  cache_tagged (cache st) ->
  resolve env = Some token ->
  answers env res ->
  ok res = true ->
  payload res = Json data ->
  mutation op = true ->
  listing next = true ->
  list_tag next = list_tag op ->
  fetch_calls (snd (run next env (snd (run op env st))))
  = (fetch_calls (snd (run op env st)) ++ [request_of env token next])%list.
Proof.
  intros Htagged Hr Ha Hok Hp Hm Hl Htag.
  apply run_request; [exact Hr |].
  apply (uncached_cached_call next token _ Hl).
  rewrite (mutation_cache op env st token res data Hr Ha Hok Hp Hm).
  apply cache_lookup_dropped.
  intros e Hin Hfn. rewrite <- Htag.
  now apply (cache_tagged_listing next token (cache st)).
Qed.

Lemma mutation_then_listing_refetches_witness :
  fetch_calls
    (snd (run (GroupsList None None)
              (Sample.signed_in 10
                 (Sample.responds 200 "OK" (VObj [("success", VBool true)])))
              (snd (run (GroupsDelete 7)
                        (Sample.signed_in 10
                           (Sample.responds 200 "OK"
                              (VObj [("success", VBool true)])))
                        Sample.cached_page))))
  = [mkRequest "http://127.0.0.1:8000/api/v1/groups/7" "DELETE"
               [("Authorization", "Bearer tok");
                ("Content-Type", "application/json")] NoBody;
     mkRequest "http://127.0.0.1:8000/api/v1/groups?page=1" "GET"
               [("Content-Type", "application/json");
                ("Authorization", "Bearer tok")] NoBody].
Proof.
  refine (mutation_then_listing_refetches (GroupsDelete 7) (GroupsList None None)
            (Sample.signed_in 10
               (Sample.responds 200 "OK" (VObj [("success", VBool true)])))
            Sample.cached_page (VStr "tok")
            (mkResponse 200 "OK" (Json (VObj [("success", VBool true)])))
            (VObj [("success", VBool true)])
            _ eq_refl (fun _ => eq_refl) eq_refl eq_refl eq_refl eq_refl eq_refl).
  intros e [<- | []]. split; intros H; [reflexivity | discriminate].
Defined.

(** X20. A mutation leaves the listings of the other resource in the
    cache: after a mutation of a group that the server accepted, a
    listing of courses is found in the store exactly as before, and the
    other way round. *)
Theorem mutation_spares_other_resource (op other : operation) (env : Env)
  (st : State) (token : value) (res : Response) (data : value) :
  cache_tagged (cache st) ->
  resolve env = Some token ->
  answers env res ->
  ok res = true ->
  payload res = Json data ->
  mutation op = true ->
  listing other = true ->
  list_tag other <> list_tag op ->
  cache_lookup (fst (cached_call other token)) (snd (cached_call other token))
    (cache (snd (run op env st)))
  = cache_lookup (fst (cached_call other token)) (snd (cached_call other token))
      (cache st).
Proof.
  intros Htagged Hr Ha Hok Hp Hm Hl Htag.
  rewrite (mutation_cache op env st token res data Hr Ha Hok Hp Hm).
  apply cache_lookup_spared.
  intros e Hin Hfn.
  now rewrite (cache_tagged_listing other token (cache st) e Htagged Hl Hin Hfn).
Qed.

Lemma mutation_spares_other_resource_witness :
  cache_lookup "getGroupsCached" [VNum 1; VStr "tok"; VObj []]
    (cache (snd (run (CoursesCreate [("title", Text "Rocq")])
                     (Sample.signed_in 10
                        (Sample.responds 201 "Created"
                           (VObj [("success", VBool true)])))
                     Sample.cached_page)))
  = Some (VObj [("success", VBool true)]).
Proof.
  refine (mutation_spares_other_resource
            (CoursesCreate [("title", Text "Rocq")]) (GroupsList None None)
            (Sample.signed_in 10
               (Sample.responds 201 "Created" (VObj [("success", VBool true)])))
            Sample.cached_page (VStr "tok")
            (mkResponse 201 "Created" (Json (VObj [("success", VBool true)])))
            (VObj [("success", VBool true)])
            _ eq_refl (fun _ => eq_refl) eq_refl eq_refl eq_refl eq_refl _).
  - intros e [<- | []]. split; intros H; [reflexivity | discriminate].
  - discriminate.
Defined.

(* ---------------------------------------------------------------- *)
(** The tagging of the store is an invariant of every operation. *)

Lemma keeps_ret {A} (a : A) : keeps_tagged (ret a).
Proof. intros env st H. exact H. Qed.

Lemma keeps_throw {A} (e : thrown) : keeps_tagged (@throw A e).
Proof. intros env st H. exact H. Qed.

Lemma keeps_lift {A} (o : Outcome A) : keeps_tagged (lift o).
Proof. intros env st H. exact H. Qed.

Lemma keeps_await (p : promise) : keeps_tagged (await p).
Proof. destruct p; [apply keeps_ret | apply keeps_throw]. Qed.

Lemma keeps_ask : keeps_tagged ask.
Proof. intros env st H. exact H. Qed.

Lemma keeps_console_error (label : string) (e : thrown) :
  keeps_tagged (console_error label e).
Proof. intros env st H. exact H. Qed.

Lemma keeps_getServerSession : keeps_tagged getServerSession.
Proof.
  intros env st H. unfold getServerSession. now destruct (cookie env).
Qed.

Lemma keeps_fetch (req : Request) : keeps_tagged (fetch req).
Proof.
  intros env st H. unfold fetch. now destruct (transport env req).
Qed.

Lemma keeps_updateTag (tag : string) : keeps_tagged (updateTag tag).
Proof.
  intros env st H e Hin. simpl in Hin. apply filter_In in Hin as [Hin _].
  now apply H.
Qed.

Lemma keeps_bind {A B} (m : M A) (k : A -> M B) :
  keeps_tagged m -> (forall a, keeps_tagged (k a)) -> keeps_tagged (bind m k).
Proof.
  intros Hm Hk env st H. unfold bind.
  specialize (Hm env st H). destruct (m env st) as [[a | e] st1]; simpl in *.
  - now apply Hk.
  - exact Hm.
Qed.

Lemma keeps_try_catch {A} (m : M A) (h : thrown -> M A) :
  keeps_tagged m -> (forall e, keeps_tagged (h e)) ->
  keeps_tagged (try_catch m h).
Proof.
  intros Hm Hh env st H. unfold try_catch.
  specialize (Hm env st H). destruct (m env st) as [[a | e] st1]; simpl in *.
  - exact Hm.
  - now apply Hh.
Qed.

Lemma keeps_if {A} (b : bool) (m1 m2 : M A) :
  keeps_tagged m1 -> keeps_tagged m2 -> keeps_tagged (if b then m1 else m2).
Proof. now destruct b. Qed.

Lemma keeps_use_cache (fn : string) (args : list value) (tag : string)
  (body : M value) :
  (fn = "getGroupsCached" -> tag = "groups-list") ->
  (fn = "getCoursesCached" -> tag = "courses-list") ->
  keeps_tagged body ->
  keeps_tagged (use_cache fn args tag body).
Proof.
  intros Hg Hc Hbody env st H. unfold use_cache.
  destruct (cache_lookup fn args (cache st)); [exact H |].
  specialize (Hbody env st H). destruct (body env st) as [[v | e] st1];
    simpl in *; [| exact Hbody].
  intros e Hin. apply in_app_iff in Hin as [Hin | [<- | []]].
  - now apply Hbody.
  - split; assumption.
Qed.

Create HintDb tagged.

#[local] Hint Resolve keeps_ret keeps_throw keeps_lift keeps_await keeps_ask
  keeps_console_error keeps_getServerSession keeps_fetch keeps_updateTag
  keeps_if : tagged.
#[local] Hint Extern 2 (keeps_tagged (bind _ _)) =>
  apply keeps_bind; [| intro] : tagged.
#[local] Hint Extern 2 (keeps_tagged (try_catch _ _)) =>
  apply keeps_try_catch; [| intro] : tagged.
#[local] Hint Extern 2 (keeps_tagged (use_cache _ _ _ _)) =>
  apply keeps_use_cache; [discriminate || reflexivity
                         | discriminate || reflexivity |] : tagged.
#[local] Hint Extern 3 (keeps_tagged (match ?e with ErrorObj _ => _ | Rejection _ => _ end)) =>
  destruct e : tagged.
#[local] Hint Extern 1 (keeps_tagged (let _ := _ in _)) => cbv zeta : tagged.

(** X21. Every stored listing sits under the tag of its function,
    [getGroupsCached] under "groups-list" and [getCoursesCached] under
    "courses-list", and every operation keeps it so, whatever the
    session and whatever the transport does. *)
Theorem cache_stays_tagged (op : operation) (env : Env) (st : State) :
  cache_tagged (cache st) ->
  cache_tagged (cache (snd (run op env st))).
Proof.
  revert env st. change (keeps_tagged (run op)).
  destruct op; simpl run;
    [ unfold Groups.getGroups, Groups.getGroupsCached
    | unfold Groups.getGroupById
    | unfold Groups.addGroup
    | unfold Groups.updateGroup, Groups.updateGroup_try
    | unfold Groups.deleteGroup
    | unfold Courses.getCourses, Courses.getCoursesCached
    | unfold Courses.getCourseById
    | unfold Courses.createCourse, Courses.rethrow
    | unfold Courses.updateCourse, Courses.rethrow
    | unfold Courses.DeleteCourse ];
    cbv zeta; auto 30 with tagged.
Qed.

Lemma cache_stays_tagged_witness :
  cache_tagged
    (cache (snd (run (GroupsList (Some 2) None)
                     (Sample.signed_in 10
                        (Sample.responds 200 "OK" (VObj [("success", VBool true)])))
                     Sample.cached_page))).
Proof.
  apply cache_stays_tagged.
  intros e [<- | []]. split; intros H; [reflexivity | discriminate].
Defined.

(* ================================================================== *)
(** ** Further properties: the form of a course *)
(* ================================================================== *)

Section FormData.

Import CourseAddForm.

Lemma getAll_app (fd fd' : FormData) (k : string) :
  getAll (fd ++ fd')%list k = (getAll fd k ++ getAll fd' k)%list.
Proof. unfold getAll. now rewrite filter_app, map_app. Qed.

Lemma getAll_append (fd : FormData) (k v k' : string) :
  getAll (FormData_append fd k v) k'
  = (getAll fd k' ++ under k k' [Text v])%list.
Proof.
  unfold FormData_append, under. rewrite getAll_app. f_equal.
  unfold getAll. cbn [filter map fst snd].
  now destruct (k =? k')%string.
Qed.

Lemma getAll_append_if_text (fd : FormData) (k : string) (text : option string)
  (k' : string) :
  getAll (append_if_text fd k text) k'
  = (getAll fd k' ++ under k k' (text_entries text))%list.
Proof.
  unfold append_if_text, text_entries, under.
  destruct text as [s |].
  - destruct (s =? "")%string.
    + destruct (k =? k')%string; now rewrite app_nil_r.
    + apply getAll_append.
  - destruct (k =? k')%string; now rewrite app_nil_r.
Qed.

Lemma getAll_append_if_number (fd : FormData) (k : string) (n : option Z)
  (k' : string) :
  getAll (append_if_number fd k n) k'
  = (getAll fd k' ++ under k k' (number_entries n))%list.
Proof.
  unfold append_if_number, number_entries, under.
  destruct n as [n |].
  - destruct (n =? 0).
    + destruct (k =? k')%string; now rewrite app_nil_r.
    + apply getAll_append.
  - destruct (k =? k')%string; now rewrite app_nil_r.
Qed.

Lemma getAll_append_branch_ids (ids : list Z) :
  forall (fd : FormData) (k' : string),
    getAll (append_branch_ids fd ids) k'
    = (getAll fd k'
       ++ under "branch_ids[]" k'
            (map (fun id => Text (number_toString id)) ids))%list.
Proof.
  induction ids as [| id ids IH]; intros fd k'; cbn [append_branch_ids map].
  - unfold under. destruct ("branch_ids[]" =? k')%string; now rewrite app_nil_r.
  - rewrite IH, getAll_append. unfold under.
    destruct ("branch_ids[]" =? k')%string; now rewrite <- app_assoc.
Qed.

Lemma getAll_featured_image (fd : FormData) (files : option (list string))
  (k' : string) :
  getAll match files with
         | Some (file :: _) => (fd ++ [("featured_image", File file)])%list
         | _ => fd
         end k'
  = (getAll fd k' ++ under "featured_image" k' (file_entries files))%list.
Proof.
  unfold under, file_entries.
  destruct files as [[| file files] |];
    try (destruct ("featured_image" =? k')%string; now rewrite app_nil_r).
  rewrite getAll_app. f_equal. unfold getAll. cbn [filter map fst snd].
  now destruct ("featured_image" =? k')%string.
Qed.

(** Everything [submitForm] writes, key by key. *)
Lemma getAll_submitForm (data : FormValues) (k : string) :
  getAll (submitForm data) k
  = (under "lm_category_id" k [Text (lm_category_id data)]
     ++ under "title" k [Text (title data)]
     ++ under "sub_title" k (text_entries (sub_title data))
     ++ under "short_description" k (text_entries (short_description data))
     ++ under "description" k (text_entries (description data))
     ++ under "featured_image" k (file_entries (featured_image data))
     ++ under "video_link" k (text_entries (video_link data))
     ++ under "level" k [Text (level data)]
     ++ under "status" k [Text (status data)]
     ++ under "is_default" k [Text (if is_default data then "1" else "0")]
     ++ under "branch_ids[]" k
          (map (fun id => Text (number_toString id)) (branch_ids data))
     ++ under "price" k (number_entries (price data))
     ++ under "discount" k (number_entries (discount data)))%list.
Proof.
  unfold submitForm. cbv zeta.
  rewrite !getAll_append_if_number, getAll_append_branch_ids,
    !getAll_append, getAll_append_if_text, getAll_featured_image,
    !getAll_append_if_text, !getAll_append.
  change (getAll [] k) with (@nil form_entry).
  rewrite <- !app_assoc. reflexivity.
Qed.

End FormData.

(** Decides the comparisons of a key with the names of the fields. *)
Ltac field_cases :=
  unfold CourseAddForm.under; cbn [String.eqb Ascii.eqb Bool.eqb app];
  try reflexivity.

(** X22. The form data of a course always holds the category, the
    title, the level, the status and the default flag, each exactly
    once; the flag is sent as "1" or "0". *)
Theorem submitForm_required_fields (data : CourseAddForm.FormValues) :
  CourseAddForm.getAll (CourseAddForm.submitForm data) "lm_category_id"
  = [Text (CourseAddForm.lm_category_id data)]
  /\ CourseAddForm.getAll (CourseAddForm.submitForm data) "title"
     = [Text (CourseAddForm.title data)]
  /\ CourseAddForm.getAll (CourseAddForm.submitForm data) "level"
     = [Text (CourseAddForm.level data)]
  /\ CourseAddForm.getAll (CourseAddForm.submitForm data) "status"
     = [Text (CourseAddForm.status data)]
  /\ CourseAddForm.getAll (CourseAddForm.submitForm data) "is_default"
     = [Text (if CourseAddForm.is_default data then "1" else "0")].
Proof.
  repeat split; rewrite getAll_submitForm; field_cases.
Qed.

(** X23. The branches of a course are sent as one [branch_ids[]] entry
    per branch, in the order of the form, each the decimal string of the
    identifier; with no branch there is no such entry. *)
Theorem submitForm_branch_ids (data : CourseAddForm.FormValues) :
  CourseAddForm.getAll (CourseAddForm.submitForm data) "branch_ids[]"
  = map (fun id => Text (number_toString id)) (CourseAddForm.branch_ids data).
Proof.
  rewrite getAll_submitForm. field_cases. now rewrite app_nil_r.
Qed.

(** X24. An optional field of the form is sent only when it is
    filled: a text that is undefined or empty, a price or a discount
    that is undefined or zero, and an empty file list leave no entry; a
    filled one leaves exactly one, and of several files only the first
    is sent. *)
Theorem submitForm_optional_fields (data : CourseAddForm.FormValues) :
  CourseAddForm.getAll (CourseAddForm.submitForm data) "sub_title"
  = CourseAddForm.text_entries (CourseAddForm.sub_title data)
  /\ CourseAddForm.getAll (CourseAddForm.submitForm data) "short_description"
     = CourseAddForm.text_entries (CourseAddForm.short_description data)
  /\ CourseAddForm.getAll (CourseAddForm.submitForm data) "description"
     = CourseAddForm.text_entries (CourseAddForm.description data)
  /\ CourseAddForm.getAll (CourseAddForm.submitForm data) "video_link"
     = CourseAddForm.text_entries (CourseAddForm.video_link data)
  /\ CourseAddForm.getAll (CourseAddForm.submitForm data) "featured_image"
     = CourseAddForm.file_entries (CourseAddForm.featured_image data)
  /\ CourseAddForm.getAll (CourseAddForm.submitForm data) "price"
     = CourseAddForm.number_entries (CourseAddForm.price data)
  /\ CourseAddForm.getAll (CourseAddForm.submitForm data) "discount"
     = CourseAddForm.number_entries (CourseAddForm.discount data).
Proof.
  repeat split; rewrite getAll_submitForm; field_cases;
    now rewrite ?app_nil_r.
Qed.

Lemma In_getAll (fd : FormData) (k : string) (e : form_entry) :
  In (k, e) fd -> In e (CourseAddForm.getAll fd k).
Proof.
  intros Hin. unfold CourseAddForm.getAll.
  apply (in_map snd _ (k, e)). apply filter_In. split; [exact Hin |].
  apply String.eqb_refl.
Qed.

(** X25. The form data holds no other key than the thirteen field
    names: the [slug] and the [end_date] of the form values are never
    sent, and the form itself never sends a [_method] field. *)
Theorem submitForm_field_names (data : CourseAddForm.FormValues)
  (k : string) (e : form_entry) :
  In (k, e) (CourseAddForm.submitForm data) ->
  In k CourseAddForm.field_names.
Proof.
  intros Hin. apply In_getAll in Hin. rewrite getAll_submitForm in Hin.
  destruct (in_dec string_dec k CourseAddForm.field_names) as [Hk | Hk];
    [exact Hk | exfalso].
  unfold CourseAddForm.field_names in Hk. cbn [In] in Hk.
  assert (Hnone : forall name entries,
             name <> k -> CourseAddForm.under name k entries = [])
    by (intros name entries Hne; unfold CourseAddForm.under;
        now destruct (String.eqb_spec name k)).
  rewrite !Hnone in Hin by tauto. exact Hin.
Qed.

Lemma submitForm_field_names_witness :
  In "branch_ids[]" CourseAddForm.field_names.
Proof.
  apply (submitForm_field_names
           (CourseAddForm.mkFormValues "2" "Rocq" None (Some "rocq") None None
              None None "beginner" (Some "2030-01-01") "1" false [4; 9]
              (Some 100) None)
           "branch_ids[]" (Text "9")).
  vm_compute. tauto.
Defined.

(** X26. Submitting the form as an update. With a token,
    [updateCourse] on the form data of [submitForm] sends one request
    whose body holds exactly one [_method] field, with value PATCH, and
    under every other key exactly what the form wrote. *)
Theorem update_sends_form_with_override (env : Env) (st : State)
  (token : value) (id : string) (data : CourseAddForm.FormValues) :
  resolve env = Some token ->
  exists req sent,
    fetch_calls (snd (Courses.updateCourse id (CourseAddForm.submitForm data)
                        env st))
    = (fetch_calls st ++ [req])%list
    /\ body req = Multipart sent
    /\ CourseAddForm.getAll sent "_method" = [Text "PATCH"]
    /\ forall k, (k =? "_method")%string = false ->
                 CourseAddForm.getAll sent k
                 = CourseAddForm.getAll (CourseAddForm.submitForm data) k.
Proof.
  intros Hr. eexists. eexists. split.
  - apply (updateCourse_request env st token id _ Hr).
  - split; [reflexivity |]. split.
    + rewrite getAll_app, getAll_submitForm. reflexivity.
    + intros k Hk. rewrite getAll_app.
      unfold CourseAddForm.getAll at 2. cbn [filter map fst snd].
      rewrite String.eqb_sym, Hk. apply app_nil_r.
Qed.

Lemma update_sends_form_with_override_witness :
  exists req sent,
    fetch_calls
      (snd (Courses.updateCourse "3"
              (CourseAddForm.submitForm
                 (CourseAddForm.mkFormValues "2" "Rocq" None None None None
                    None None "beginner" None "1" false [4; 9] (Some 100) None))
              (Sample.signed_in 10 Sample.offline) Sample.empty))
    = ([] ++ [req])%list
    /\ body req = Multipart sent
    /\ CourseAddForm.getAll sent "_method" = [Text "PATCH"]
    /\ forall k, (k =? "_method")%string = false ->
                 CourseAddForm.getAll sent k
                 = CourseAddForm.getAll
                     (CourseAddForm.submitForm
                        (CourseAddForm.mkFormValues "2" "Rocq" None None None
                           None None None "beginner" None "1" false [4; 9]
                           (Some 100) None)) k.
Proof.
  exact (update_sends_form_with_override (Sample.signed_in 10 Sample.offline)
           Sample.empty (VStr "tok") "3" _ eq_refl).
Defined.

(* ================================================================== *)
(** ** Further properties: the page of the courses *)
(* ================================================================== *)



(** X28. Without a token the page does not fail: it renders the error
    component with the message of the missing token, and no request is
    made. *)
Theorem CoursesData_without_token (Number : string -> Z)
  (resolvedSearchParams : obj) (env : Env) (st : State) :
  resolve env = None ->
  CoursesData.CoursesData Number resolvedSearchParams env st
  = (Return (CoursesData.ErrorComponent
               "No valid session or access token found."), st).
Proof.
  intros Hr. unfold CoursesData.CoursesData, bind, try_catch.
  now rewrite (getCourses_without_token env st Hr).
Qed.

Lemma CoursesData_without_token_witness :
  CoursesData.CoursesData (fun _ => 1) [("page", VStr "1")]
    (Sample.signed_in 1001 Sample.offline) Sample.empty
  = (Return (CoursesData.ErrorComponent
               "No valid session or access token found."), Sample.empty).
Proof.
  apply CoursesData_without_token. reflexivity.
Defined.

Section PageOfCourses.

Variables (Number : string -> Z) (resolvedSearchParams : obj).
Variables (env : Env) (st : State) (token : value).
Hypothesis Hr : resolve env = Some token.
Hypothesis Hmiss :
  uncached (CoursesList (Some (CoursesData.page_of Number resolvedSearchParams))
                        (Some (CoursesData.params resolvedSearchParams)))
           token st.

(** What the page does with an answer to its listing. *)
Lemma CoursesData_answered (res : Response) :
  answers env res ->
  fst (CoursesData.CoursesData Number resolvedSearchParams env st)
  = if ok res
    then match payload res with
         | Json data =>
             match prop data "data" with
             | Return inner =>
                 match prop inner "courses" with
                 | Return courses =>
                     match prop inner "pagination" with
                     | Return pagination =>
                         match CoursesData.length_is_zero courses with
                         | Return true =>
                             Return (CoursesData.NotFoundComponent
                                       "No courses found.")
                         | Return false =>
                             match CoursesData.rows courses with
                             | Return items =>
                                 Return (CoursesData.CoursesTable items pagination)
                             | Throw e => Throw e
                             end
                         | Throw e => Throw e
                         end
                     | Throw e => Throw e
                     end
                 | Throw e => Throw e
                 end
             | Throw e => Throw e
             end
         | NotJson msg => Return (CoursesData.ErrorComponent msg)
         end
    else Return (CoursesData.ErrorComponent
                   ("Failed to fetch courses: " ++ statusText res)).
Proof.
  intros Ha. unfold CoursesData.CoursesData, Courses.getCourses.
  with_token Hr env st.
  unfold Courses.getCoursesCached, use_cache. cache_miss Hmiss.
  cbv beta iota delta [bind try_catch ask fetch].
  rewrite Ha. unfold json.
  destruct (ok res); [| reflexivity]. cbn [negb].
  destruct (payload res) as [data | msg]; [| reflexivity].
  cbn [ret await lift fst snd].
  destruct (prop data "data") as [inner | e]; [| reflexivity].
  destruct (prop inner "courses") as [courses | e]; [| reflexivity].
  destruct (prop inner "pagination") as [pagination | e]; [| reflexivity].
  destruct (CoursesData.length_is_zero courses) as [[|] | e]; try reflexivity.
  now destruct (CoursesData.rows courses).
Qed.

End PageOfCourses.

(** X29. When the listing fails the page renders the error component
    and throws nothing: with the text "Failed to fetch courses: " and
    the status text when the server answers with a status outside
    200-299, with the message of the parser when the body of a success
    is not JSON. *)
Theorem CoursesData_renders_failures (Number : string -> Z)
  (resolvedSearchParams : obj) (env : Env) (st : State) (token : value)
  (res : Response) :
  resolve env = Some token ->
  uncached (CoursesList (Some (CoursesData.page_of Number resolvedSearchParams))
                        (Some (CoursesData.params resolvedSearchParams)))
           token st ->
  answers env res ->
  (ok res = false ->
   fst (CoursesData.CoursesData Number resolvedSearchParams env st)
   = Return (CoursesData.ErrorComponent
               ("Failed to fetch courses: " ++ statusText res)))
  /\ (forall msg,
         ok res = true -> payload res = NotJson msg ->
         fst (CoursesData.CoursesData Number resolvedSearchParams env st)
         = Return (CoursesData.ErrorComponent msg)).
Proof.
  intros Hr Hmiss Ha.
  rewrite (CoursesData_answered Number resolvedSearchParams env st token
             Hr Hmiss res Ha).
  split.
  - now intros ->.
  - intros msg -> Hp. now rewrite Hp.
Qed.

Lemma CoursesData_renders_failures_witness :
  fst (CoursesData.CoursesData (fun _ => 1) []
         (Sample.signed_in 10
            (Sample.responds 500 "Internal Server Error" Sample.server_error))
         Sample.empty)
  = Return (CoursesData.ErrorComponent
              "Failed to fetch courses: Internal Server Error").
Proof.
  apply (proj1 (CoursesData_renders_failures (fun _ => 1) []
                  (Sample.signed_in 10
                     (Sample.responds 500 "Internal Server Error"
                        Sample.server_error))
                  Sample.empty (VStr "tok")
                  (mkResponse 500 "Internal Server Error"
                     (Json Sample.server_error))
                  eq_refl eq_refl (fun _ => eq_refl))).
  reflexivity.
Defined.

(** X30. When the server answers the listing with a success whose
    body holds [data.courses], the page renders "No courses found." for
    the empty array, and for an array of course records a table of
    exactly these records, in their order, with the pagination of the
    body. *)
Theorem CoursesData_renders_listing (Number : string -> Z)
  (resolvedSearchParams : obj) (env : Env) (st : State) (token : value)
  (res : Response) (data inner : obj) (courses : list value) :
  resolve env = Some token ->
  uncached (CoursesList (Some (CoursesData.page_of Number resolvedSearchParams))
                        (Some (CoursesData.params resolvedSearchParams)))
           token st ->
  answers env res ->
  ok res = true ->
  payload res = Json (VObj data) ->
  get data "data" = VObj inner ->
  get inner "courses" = VArr courses ->
  forallb (fun course => negb (CoursesData.nullish course)) courses = true ->
  fst (CoursesData.CoursesData Number resolvedSearchParams env st)
  = Return match courses with
           | [] => CoursesData.NotFoundComponent "No courses found."
           | _ :: _ => CoursesData.CoursesTable courses (get inner "pagination")
           end.
Proof.
  intros Hr Hmiss Ha Hok Hp Hdata Hcourses Hrecords.
  rewrite (CoursesData_answered Number resolvedSearchParams env st token
             Hr Hmiss res Ha).
  rewrite Hok, Hp. cbn [prop]. rewrite Hdata. cbn [prop]. rewrite Hcourses.
  destruct courses as [| course courses]; [reflexivity |].
  cbn [CoursesData.length_is_zero CoursesData.rows].
  assert (Hfind : forall l,
             forallb (fun c => negb (CoursesData.nullish c)) l = true ->
             find CoursesData.nullish l = None).
  { induction l as [| x l IH]; [reflexivity |]. simpl.
    destruct (CoursesData.nullish x); [discriminate | exact IH]. }
  now rewrite (Hfind _ Hrecords).
Qed.

Lemma CoursesData_renders_listing_witness :
  fst (CoursesData.CoursesData (fun _ => 1) []
         (Sample.signed_in 10
            (Sample.responds 200 "OK"
               (VObj [("success", VBool true);
                      ("data", VObj [("courses", VArr [VObj [("id", VNum 1)]]);
                                     ("pagination", VObj [("total", VNum 1)])])])))
         Sample.empty)
  = Return (CoursesData.CoursesTable [VObj [("id", VNum 1)]]
              (VObj [("total", VNum 1)])).
Proof.
  exact (CoursesData_renders_listing (fun _ => 1) []
           (Sample.signed_in 10
              (Sample.responds 200 "OK"
                 (VObj [("success", VBool true);
                        ("data", VObj [("courses", VArr [VObj [("id", VNum 1)]]);
                                       ("pagination", VObj [("total", VNum 1)])])])))
           Sample.empty (VStr "tok")
           (mkResponse 200 "OK"
              (Json (VObj [("success", VBool true);
                           ("data", VObj [("courses", VArr [VObj [("id", VNum 1)]]);
                                          ("pagination", VObj [("total", VNum 1)])])])))
           [("success", VBool true);
            ("data", VObj [("courses", VArr [VObj [("id", VNum 1)]]);
                           ("pagination", VObj [("total", VNum 1)])])]
           [("courses", VArr [VObj [("id", VNum 1)]]);
            ("pagination", VObj [("total", VNum 1)])]
           [VObj [("id", VNum 1)]]
           eq_refl eq_refl (fun _ => eq_refl) eq_refl eq_refl eq_refl eq_refl
           eq_refl).
Defined.
